(** * The reservation handler of el-rincon-digital

    A shallow embedding of [supabase/functions/handle-reservation/index.ts]:
    the validation of a reservation payload, the bounded retry helper and the
    request handler that persists a reservation and then sends a
    notification email; and of the handlers of the form component that
    posts the reservation to it.

    Conventions of the embedding.
    - A JavaScript string is a [string]; each [ascii] stands for one UTF-16
      code unit below 256, so the non-ASCII letters of the e-mail template
      are written by their code ("243" is o-acute).
    - A value of type [Error | null], or an optional property of the
      [ReservationData] interface, is an [option]; [None] is the absent
      value ([null], [undefined]).
    - A rejected promise / a [throw] is the [Thrown] outcome of a
      computation in the monad [M] (state passing over [State]).
    - The collaborators the handler talks to (the clock and time zone of the
      host, the storage client, the e-mail provider, the environment
      variables) are gathered in the record [Host]; what they do is recorded
      in the [trace] of the state.
    - [console.log] and [console.error] have no effect on the result and are
      left out. *)

From Stdlib Require Import ZArith List String Ascii Bool Lia DecimalString.
Import ListNotations.

#[local] Open Scope Z_scope.
#[local] Open Scope list_scope.

Infix "+++" := String.append (right associativity, at level 60).

(* ================================================================= *)
(** ** The JavaScript values and built-ins the handler uses *)

Module Js.

(** [Error]: only its [message] is ever read by the handler. *)
Record Error := mkError { message : string }.

(** The outcome of awaiting a promise, or of a block that may throw. *)
Inductive Outcome (A : Type) : Type :=
| Returned (a : A)
| Thrown (e : Error).
Arguments Returned {A} a.
Arguments Thrown {A} e.

(** Truthiness of a possibly absent string: [undefined], [null] and the
    empty string are falsy. *)
Definition truthy (v : option string) : bool :=
  match v with
  | Some EmptyString => false
  | Some _ => true
  | None => false
  end.

(** [v || d] for a possibly absent string [v] and a string [d]. *)
Definition or_else (v : option string) (d : string) : string :=
  match v with
  | Some EmptyString => d
  | Some s => s
  | None => d
  end.

(** [`${v}`]: an absent value is interpolated as the text undefined. *)
Definition interpolate (v : option string) : string :=
  match v with
  | Some s => s
  | None => "undefined"
  end.

(** *** JSON values and [JSON.stringify] *)

#[local] Unset Elimination Schemes.
Inductive Json : Type :=
| JNull
| JBool (b : bool)
| JNum (n : Z)
| JStr (s : string)
| JArr (items : list Json)
| JObj (fields : list (string * Json)).
#[local] Set Elimination Schemes.

(** Truthiness of a JSON value: [null], [false], [0] and the empty string
    are falsy; arrays and objects are truthy. *)
Definition json_truthy (v : Json) : bool :=
  match v with
  | JNull => false
  | JBool b => b
  | JNum n => negb (n =? 0)
  | JStr EmptyString => false
  | JStr _ => true
  | JArr _ => true
  | JObj _ => true
  end.

(** Property lookup [o.key] on a JSON object; [None] is [undefined]. *)
Fixpoint get_field (key : string) (fields : list (string * Json)) : option Json :=
  match fields with
  | [] => None
  | (k, v) :: rest => if String.eqb k key then Some v else get_field key rest
  end.

Definition dquote : ascii := "034"%char.
Definition backslash : ascii := "092"%char.

Definition hex_digit (n : N) : ascii :=
  if (n <? 10)%N then ascii_of_N (48 + n) else ascii_of_N (87 + n).

(** The escape [JSON.stringify] writes for one code unit. *)
Definition escape_char (c : ascii) : string :=
  let n := N_of_ascii c in
  if Ascii.eqb c dquote then String backslash (String dquote EmptyString)
  else if Ascii.eqb c backslash then String backslash (String backslash EmptyString)
  else if (n =? 8)%N then String backslash "b"
  else if (n =? 9)%N then String backslash "t"
  else if (n =? 10)%N then String backslash "n"
  else if (n =? 12)%N then String backslash "f"
  else if (n =? 13)%N then String backslash "r"
  else if (n <? 32)%N then
    String backslash ("u00" +++ String (hex_digit (n / 16)) (String (hex_digit (n mod 16)) EmptyString))
  else String c EmptyString.

Fixpoint escape (s : string) : string :=
  match s with
  | EmptyString => EmptyString
  | String c rest => escape_char c +++ escape rest
  end.

Definition quote (s : string) : string :=
  String dquote (escape s +++ String dquote EmptyString).

Definition string_of_Z (n : Z) : string :=
  NilZero.string_of_int (Z.to_int n).

Fixpoint JSON_stringify (v : Json) : string :=
  match v with
  | JNull => "null"
  | JBool true => "true"
  | JBool false => "false"
  | JNum n => string_of_Z n
  | JStr s => quote s
  | JArr items =>
      let fix elements (l : list Json) : string :=
        match l with
        | [] => EmptyString
        | [x] => JSON_stringify x
        | x :: rest => JSON_stringify x +++ "," +++ elements rest
        end in
      "[" +++ elements items +++ "]"
  | JObj fields =>
      let fix members (l : list (string * Json)) : string :=
        match l with
        | [] => EmptyString
        | [(k, x)] => quote k +++ ":" +++ JSON_stringify x
        | (k, x) :: rest => quote k +++ ":" +++ JSON_stringify x +++ "," +++ members rest
        end in
      "{" +++ members fields +++ "}"
  end.

(** *** Regular expressions

    The fragment needed for the e-mail pattern, matched by Brzozowski
    derivatives.  [test] is the match of a pattern anchored by [^] and [$]
    (no flags), that is a match of the whole string. *)

Inductive Regex : Type :=
| Void
| Eps
| Class (p : ascii -> bool)
| Cat (r1 r2 : Regex)
| Alt (r1 r2 : Regex)
| Star (r : Regex).

Definition Plus (r : Regex) : Regex := Cat r (Star r).
Definition Lit (c : ascii) : Regex := Class (Ascii.eqb c).

Fixpoint nullable (r : Regex) : bool :=
  match r with
  | Void => false
  | Eps => true
  | Class _ => false
  | Cat r1 r2 => nullable r1 && nullable r2
  | Alt r1 r2 => nullable r1 || nullable r2
  | Star _ => true
  end.

Fixpoint deriv (c : ascii) (r : Regex) : Regex :=
  match r with
  | Void => Void
  | Eps => Void
  | Class p => if p c then Eps else Void
  | Cat r1 r2 =>
      if nullable r1 then Alt (Cat (deriv c r1) r2) (deriv c r2)
      else Cat (deriv c r1) r2
  | Alt r1 r2 => Alt (deriv c r1) (deriv c r2)
  | Star r1 => Cat (deriv c r1) (Star r1)
  end.

Fixpoint test (r : Regex) (s : string) : bool :=
  match s with
  | EmptyString => nullable r
  | String c rest => test (deriv c r) rest
  end.

(** What a pattern matches, read off its shape. *)
Inductive Matches : Regex -> string -> Prop :=
| MatchEps : Matches Eps EmptyString
| MatchClass (p : ascii -> bool) (c : ascii) :
    p c = true -> Matches (Class p) (String c EmptyString)
| MatchCat (r1 r2 : Regex) (s1 s2 : string) :
    Matches r1 s1 -> Matches r2 s2 -> Matches (Cat r1 r2) (s1 +++ s2)
| MatchAltL (r1 r2 : Regex) (s : string) :
    Matches r1 s -> Matches (Alt r1 r2) s
| MatchAltR (r1 r2 : Regex) (s : string) :
    Matches r2 s -> Matches (Alt r1 r2) s
| MatchStarEnd (r : Regex) : Matches (Star r) EmptyString
| MatchStarMore (r : Regex) (s1 s2 : string) :
    Matches r s1 -> Matches (Star r) s2 -> Matches (Star r) (s1 +++ s2).

(** Every code unit of [s] is in the class [p]. *)
Fixpoint all_in (p : ascii -> bool) (s : string) : bool :=
  match s with
  | EmptyString => true
  | String c rest => p c && all_in p rest
  end.

(** The class [\s] on code units below 256: tab, line feed, vertical tab,
    form feed, carriage return, space and no-break space. *)
Definition is_space (c : ascii) : bool :=
  let n := N_of_ascii c in
  ((9 <=? n) && (n <=? 13) || (n =? 32) || (n =? 160))%N.

(** *** Dates

    A [Date] is its time value: milliseconds since the epoch, or [None] for
    an invalid date (NaN).  [MakeDay] is the day number of a civil date
    (days since 1970-01-01, proleptic Gregorian calendar). *)

Definition msPerDay : Z := 86400000.

Definition is_leap (y : Z) : bool :=
  ((y mod 4 =? 0) && negb (y mod 100 =? 0)) || (y mod 400 =? 0).

Definition DaysInMonth (y m : Z) : Z :=
  if m =? 2 then (if is_leap y then 29 else 28)
  else if (m =? 4) || (m =? 6) || (m =? 9) || (m =? 11) then 30
  else 31.

Definition MakeDay (y m d : Z) : Z :=
  let y' := if m <=? 2 then y - 1 else y in
  let era := y' / 400 in
  let yoe := y' - era * 400 in
  let mp := (m + 9) mod 12 in
  let doy := (153 * mp + 2) / 5 + d - 1 in
  let doe := yoe * 365 + yoe / 4 - yoe / 100 + doy in
  era * 146097 + doe - 719468.

Definition digit (c : ascii) : option Z :=
  let n := N_of_ascii c in
  if ((48 <=? n) && (n <=? 57))%N then Some (Z.of_N n - 48) else None.

Definition number2 (a b : ascii) : option Z :=
  match digit a, digit b with
  | Some x, Some y => Some (10 * x + y)
  | _, _ => None
  end.

Definition number4 (a b c d : ascii) : option Z :=
  match number2 a b, number2 c d with
  | Some x, Some y => Some (100 * x + y)
  | _, _ => None
  end.

Definition is_dash (c : ascii) : bool := Ascii.eqb c "-"%char.

(** The date-only form [YYYY-MM-DD] of the date-time string format, with a
    month and a day that exist in the calendar. *)
Definition iso_calendar_date (s : string) : option (Z * Z * Z) :=
  match s with
  | String y1 (String y2 (String y3 (String y4 (String s1
      (String m1 (String m2 (String s2 (String d1 (String d2 EmptyString))))))))) =>
      match number4 y1 y2 y3 y4, number2 m1 m2, number2 d1 d2 with
      | Some y, Some m, Some d =>
          if is_dash s1 && is_dash s2 && (1 <=? m) && (m <=? 12)
             && (1 <=? d) && (d <=? DaysInMonth y m)
          then Some (y, m, d) else None
      | _, _, _ => None
      end
  | _ => None
  end.

(** [new Date(s)]: a date-only string denotes midnight UTC of that day;
    what any other string denotes (date-time forms, the formats an engine
    accepts beyond the standard one, NaN for the rest) is the host's
    [other_formats]. *)
Definition Date_parse (other_formats : string -> option Z) (s : string) : option Z :=
  match iso_calendar_date s with
  | Some (y, m, d) => Some (MakeDay y m d * msPerDay)
  | None => other_formats s
  end.

(** [new Date(v)] for a possibly absent string: [new Date(undefined)] is an
    invalid date. *)
Definition Date_new (other_formats : string -> option Z) (v : option string)
  : option Z :=
  match v with
  | Some s => Date_parse other_formats s
  | None => None
  end.

(** [d.setHours(0, 0, 0, 0)] on the time value [t]: midnight, in the local
    time zone, of the local day of [t].  [tza] is the offset of local time
    from UTC in milliseconds. *)
Definition setHours0 (tza t : Z) : Z :=
  ((t + tza) / msPerDay) * msPerDay - tza.

(** The local calendar day of the time value [t], as a day number. *)
Definition local_day (tza t : Z) : Z := (t + tza) / msPerDay.

(** [a < b] on dates: a comparison with an invalid date is false. *)
Definition Date_lt (a : option Z) (b : Z) : bool :=
  match a with
  | Some t => t <? b
  | None => false
  end.

End Js.

(* ================================================================= *)
(** ** The handler *)

Module Handler.
Import Js.

(** [interface ReservationData].  The payload comes from [req.json()], so
    any property may be absent at run time, which is what the first check of
    the validation is there for. *)
Record ReservationData := mkReservationData {
  name : option string;
  email : option string;
  date : option string;
  time : option string;
  guests : option string;
  message_ : option string;
  reservationType : option string;
  eventType : option string;
  attendees : option string;
  eventDescription : option string
}.

(** Configuration *)
Definition MAX_RETRIES : Z := 3.
Definition RETRY_DELAY : Z := 500.

(** CORS headers for all responses *)
Definition corsHeaders : list (string * string) :=
  [ ("Access-Control-Allow-Origin", "*");
    ("Access-Control-Allow-Methods", "POST, OPTIONS");
    ("Access-Control-Allow-Headers", "Content-Type, Authorization") ]%string.

(** A [Response]: the status, the body text and the headers given to its
    constructor. *)
Record Response := mkResponse {
  status : Z;
  body : string;
  headers : list (string * string)
}.

Definition createResponse (body : Json) (status : Z) : Response :=
  mkResponse status (JSON_stringify body)
    (("Content-Type", "application/json")%string :: corsHeaders).

(** The request as the handler reads it: its method and the outcome of
    [req.json()]. *)
Record Request := mkRequest {
  method : string;
  json : Outcome ReservationData
}.

(** *** Collaborators *)

(** The object given to [insert]; [created_at] holds the time value of the
    [new Date()] that [toISOString] renders. *)
Record Row := mkRow {
  r_name : option string;
  r_email : option string;
  r_date : option string;
  r_time : option string;
  r_guests : option string;
  r_message : option string;
  r_reservation_type : option string;
  r_event_type : option string;
  r_attendees : option string;
  r_event_description : option string;
  r_created_at : Z
}.

(** A row read back by [select()]: a JSON object, column by column. *)
Definition StoredRow : Type := list (string * Json).

(** What awaiting [insert([row]).select()] gives: the client throws, or it
    returns [{ data, error }]. *)
Inductive DbOutcome : Type :=
| DbThrows (e : Error)
| DbReplies (data : option (list StoredRow)) (error : option Error).

Record FetchRequest := mkFetchRequest {
  f_url : string;
  f_method : string;
  f_headers : list (string * string);
  f_body : string
}.

(** The response of [fetch], as far as the handler reads it. *)
Record FetchResponse := mkFetchResponse {
  ok : bool;
  text : Outcome string;
  json_ : Outcome Json
}.

Inductive FetchOutcome : Type :=
| FetchThrows (e : Error)
| FetchReplies (r : FetchResponse).

(** The host of the function and its collaborators.  [storage k row] is the
    outcome of the insert call number [k] (counted from 0 within the
    request) and [mail k req] the outcome of the [fetch] number [k]. *)
Record Host := mkHost {
  LocalTZA : Z;
  other_formats : string -> option Z;
  getenv : string -> option string;
  storage : nat -> Row -> DbOutcome;
  mail : nat -> FetchRequest -> FetchOutcome
}.

(** *** State and effects *)

Inductive Event : Type :=
| EvInvoke                      (* retryOperation called operation() *)
| EvSleep (ms : Z)              (* a setTimeout of ms was awaited *)
| EvInsert (row : Row)          (* an insert was sent to the storage *)
| EvFetch (req : FetchRequest). (* a request was sent to the mail provider *)

(** The state a request runs in: the clock (the time value [new Date()]
    reads; it moves with the waits of the retry loop, the time the calls
    themselves take is not counted), what has been done so far (oldest
    first), and the local variable [emailSuccess] that the e-mail closure
    assigns. *)
Record State := mkState {
  clock : Z;
  trace : list Event;
  emailSuccess : bool
}.

Definition M (A : Type) : Type := State -> Outcome A * State.

Definition ret {A} (a : A) : M A := fun s => (Returned a, s).

Definition throw {A} (e : Error) : M A := fun s => (Thrown e, s).

Definition bind {A B} (m : M A) (k : A -> M B) : M B :=
  fun s =>
    match m s with
    | (Returned a, s') => k a s'
    | (Thrown e, s') => (Thrown e, s')
    end.

(** [try { m } catch (error) { h error }] *)
Definition try_catch {A} (m : M A) (h : Error -> M A) : M A :=
  fun s =>
    match m s with
    | (Returned a, s') => (Returned a, s')
    | (Thrown e, s') => h e s'
    end.

Notation "x <- m ;; k" := (bind m (fun x => k))
  (at level 61, m at next level, right associativity).
Notation "m ;;; k" := (bind m (fun _ => k))
  (at level 61, right associativity).

Definition log (ev : Event) (s : State) : State :=
  mkState (clock s) (trace s ++ [ev]) (emailSuccess s).

Definition emit (ev : Event) : M unit := fun s => (Returned tt, log ev s).

(** [await new Promise(resolve => setTimeout(resolve, ms))] *)
Definition slept (ms : Z) (s : State) : State :=
  mkState (clock s + ms) (trace s ++ [EvSleep ms]) (emailSuccess s).

Definition sleep (ms : Z) : M unit := fun s => (Returned tt, slept ms s).

Definition now : M Z := fun s => (Returned (clock s), s).

Definition set_emailSuccess (b : bool) : M unit :=
  fun s => (Returned tt, mkState (clock s) (trace s) b).

Definition get_emailSuccess : M bool := fun s => (Returned (emailSuccess s), s).

Definition is_invoke (ev : Event) : bool :=
  match ev with EvInvoke => true | _ => false end.
Definition is_insert (ev : Event) : bool :=
  match ev with EvInsert _ => true | _ => false end.
Definition is_fetch (ev : Event) : bool :=
  match ev with EvFetch _ => true | _ => false end.

(** What a trace shows: how often an operation was invoked, which waits
    were made, how many storage and mail calls went out. *)
Definition invocations (t : list Event) : nat := List.length (filter is_invoke t).
Definition storage_calls (t : list Event) : nat := List.length (filter is_insert t).
Definition mail_calls (t : list Event) : nat := List.length (filter is_fetch t).

Fixpoint waits (t : list Event) : list Z :=
  match t with
  | [] => []
  | EvSleep ms :: rest => ms :: waits rest
  | _ :: rest => waits rest
  end.

(** *** Validation *)

Record Validation := mkValidation {
  valid : bool;
  vmessage : option string
}.

Definition not_space_or_at (c : ascii) : bool :=
  negb (is_space c || Ascii.eqb c "@"%char).

(** [/^[^\s@]+@[^\s@]+\.[^\s@]+$/] *)
Definition emailRegex : Regex :=
  Cat (Plus (Class not_space_or_at))
   (Cat (Lit "@"%char)
    (Cat (Plus (Class not_space_or_at))
     (Cat (Lit "."%char)
          (Plus (Class not_space_or_at))))).

Definition msg_missing : string :=
  "Missing required fields. Please fill all required information.".
Definition msg_email : string := "Invalid email format.".
Definition msg_past : string := "Reservation date cannot be in the past.".

(** [validateReservationData], on the host [h] at the time [t] that
    [new Date()] reads. *)
Definition validateReservationData (h : Host) (t : Z) (data : ReservationData)
  : Validation :=
  if negb (truthy (name data)) || negb (truthy (email data))
     || negb (truthy (date data)) || negb (truthy (time data))
     || negb (truthy (guests data)) || negb (truthy (reservationType data))
  then mkValidation false (Some msg_missing)
  else if negb (test emailRegex (interpolate (email data)))
  then mkValidation false (Some msg_email)
  else
    let reservationDate := Date_new (other_formats h) (date data) in
    let today := setHours0 (LocalTZA h) t in
    if Date_lt reservationDate today
    then mkValidation false (Some msg_past)
    else mkValidation true None.

(** *** Bounded retry *)

Definition generic_failure : Error :=
  mkError "Operation failed after maximum retries".

(** The loop of [retryOperation], entered with [attempt] and [lastError]
    and with [remaining] iterations to go: the loop condition
    [attempt < maxRetries] holds exactly while [remaining] is not 0.  Each
    call of [operation()] leaves an [EvInvoke] in the trace. *)
Fixpoint retry_from {T} (operation : M T) (maxRetries delay : Z)
    (remaining : nat) (attempt : Z) (lastError : option Error) : M T :=
  match remaining with
  | O =>
      throw (match lastError with
             | Some e => e
             | None => generic_failure
             end)
  | S remaining' =>
      try_catch (emit EvInvoke ;;; operation)
        (fun error =>
           (if attempt <? maxRetries - 1
            then sleep (delay * (attempt + 1))
            else ret tt) ;;;
           retry_from operation maxRetries delay remaining' (attempt + 1)
             (Some error))
  end.

Definition retryOperation {T} (operation : M T) (maxRetries delay : Z) : M T :=
  retry_from operation maxRetries delay (Z.to_nat maxRetries) 0 None.

(** *** The two operations the handler retries *)

Definition row_of (data : ReservationData) (created_at : Z) : Row :=
  mkRow (name data) (email data) (date data) (time data) (guests data)
        (message_ data) (reservationType data) (eventType data)
        (attendees data) (eventDescription data) created_at.

(** The closure given to the first [retryOperation]: one insert into the
    table of reservations, reading the inserted rows back.  The client that
    [createClient] builds from the URL and the key of the project is the
    [storage] of the host. *)
Definition insertReservation (h : Host) (reservationData : ReservationData)
  : M (option (list StoredRow)) :=
  t <- now ;;
  fun s =>
    let row := row_of reservationData t in
    let s' := log (EvInsert row) s in
    match storage h (storage_calls (trace s)) row with
    | DbThrows e => (Thrown e, s')
    | DbReplies _ (Some error) => (Thrown error, s')
    | DbReplies data None => (Returned data, s')
    end.

Definition nl : string := String "010"%char EmptyString.
Definition o_acute : string := String "243"%char EmptyString.

(** The e-mail template, before the event block. *)
Definition emailBase (d : ReservationData) : string :=
  nl +++ "      <h1>Nueva Reserva</h1>" +++
  nl +++ "      <p><strong>Nombre:</strong> " +++ interpolate (name d) +++ "</p>" +++
  nl +++ "      <p><strong>Correo:</strong> " +++ interpolate (email d) +++ "</p>" +++
  nl +++ "      <p><strong>Fecha:</strong> " +++ interpolate (date d) +++ "</p>" +++
  nl +++ "      <p><strong>Hora:</strong> " +++ interpolate (time d) +++ "</p>" +++
  nl +++ "      <p><strong>Invitados:</strong> " +++ interpolate (guests d) +++ "</p>" +++
  nl +++ "      <p><strong>Mensaje:</strong> " +++ or_else (message_ d) "N/A" +++ "</p>" +++
  nl +++ "    ".

Definition eventTypeField (d : ReservationData) : string :=
  "<p><strong>Tipo de Evento:</strong> " +++ interpolate (eventType d) +++ "</p>".

Definition attendeesField (d : ReservationData) : string :=
  "<p><strong>Cantidad de Asistentes:</strong> " +++ interpolate (attendees d) +++ "</p>".

Definition eventDescriptionField (d : ReservationData) : string :=
  "<p><strong>Descripci" +++ o_acute +++ "n del Evento:</strong> "
    +++ or_else (eventDescription d) "N/A" +++ "</p>".

(** The block appended for an event. *)
Definition eventBlock (d : ReservationData) : string :=
  nl +++ "        <h2>Detalles del Evento</h2>" +++
  nl +++ "        " +++ eventTypeField d +++
  nl +++ "        " +++ attendeesField d +++
  nl +++ "        " +++ eventDescriptionField d +++
  nl +++ "      ".

Definition is_event (d : ReservationData) : bool :=
  match reservationType d with
  | Some s => String.eqb s "event"
  | None => false
  end.

Definition emailContent (d : ReservationData) : string :=
  if is_event d then emailBase d +++ eventBlock d else emailBase d.

Definition adminEmail : string := "restaurantdejorgitoadm@gmail.com".

Definition json_of (v : option string) : Json :=
  match v with
  | Some s => JStr s
  | None => JNull
  end.

Definition emailRequest (h : Host) (d : ReservationData) : FetchRequest :=
  let resendApiKey := or_else (getenv h "RESEND_API_KEY") "re_123456789" in
  mkFetchRequest "https://api.resend.com/emails" "POST"
    [ ("Content-Type", "application/json");
      ("Authorization", "Bearer " +++ resendApiKey) ]%string
    (JSON_stringify (JObj
      [ ("from", JStr ("Restaurant - El Rinc" +++ o_acute
                       +++ "n de Jorgito <restaurantdejorgitoadm@gmail.com>"));
        ("to", JArr [JStr adminEmail; json_of (email d)]);
        ("subject", JStr ("Nueva Reserva: " +++ interpolate (name d)));
        ("html", JStr (emailContent d)) ]%string)).

(** The closure given to the second [retryOperation]. *)
Definition sendEmail (h : Host) (reservationData : ReservationData) : M Json :=
  fun s =>
    let req := emailRequest h reservationData in
    let s' := log (EvFetch req) s in
    match mail h (mail_calls (trace s)) req with
    | FetchThrows e => (Thrown e, s')
    | FetchReplies emailResponse =>
        if negb (ok emailResponse) then
          match text emailResponse with
          | Thrown e => (Thrown e, s')
          | Returned emailError =>
              (Thrown (mkError ("Email sending failed: " +++ emailError)), s')
          end
        else
          (set_emailSuccess true ;;;
           fun s2 => (json_ emailResponse, s2)) s'
    end.

(** *** The request handler *)

(** [dbResult?.[0]?.id || null] *)
Definition reservationId (dbResult : option (list StoredRow)) : Json :=
  match dbResult with
  | Some (row :: _) =>
      match get_field "id" row with
      | Some id => if json_truthy id then id else JNull
      | None => JNull
      end
  | _ => JNull
  end.

Definition emailNote_text : string :=
  "Confirmation email could not be sent, but your reservation has been registered.".

Definition successBody (emailSuccess : bool) (dbResult : option (list StoredRow))
  : Json :=
  JObj [ ("success", JBool true);
         ("message", JStr "Reservation submitted successfully");
         ("emailSent", JBool emailSuccess);
         ("reservationId", reservationId dbResult);
         ("emailNote", if emailSuccess then JNull else JStr emailNote_text)
       ]%string.

Definition databaseErrorBody (error : Error) : Json :=
  JObj [ ("error", JStr "Database error");
         ("message", JStr "We could not save your reservation. Please try again later or contact us directly.");
         ("details", JStr (message error)) ]%string.

Definition validationErrorBody (validation : Validation) : Json :=
  JObj (("error", JStr "Validation error")%string ::
        match vmessage validation with
        | Some m => [("message", JStr m)%string]
        | None => []
        end).

(** The storage step and the e-mail step of the handler, each under the
    retry policy with its default parameters. *)
Definition persist (h : Host) (reservationData : ReservationData)
  : M (option (list StoredRow)) :=
  retryOperation (insertReservation h reservationData) MAX_RETRIES RETRY_DELAY.

Definition notify (h : Host) (reservationData : ReservationData) : M Json :=
  retryOperation (sendEmail h reservationData) MAX_RETRIES RETRY_DELAY.

(** [try { x = await m } catch (error) { ... }], the outcome handed to the
    code that follows. *)
Definition attempt {A} (m : M A) : M (Outcome A) :=
  fun s => let (r, s') := m s in (Returned r, s').

Definition serve (h : Host) (req : Request) : M Response :=
  try_catch
    (if String.eqb (method req) "OPTIONS" then
       ret (mkResponse 200 "ok" corsHeaders)
     else if negb (String.eqb (method req) "POST") then
       ret (createResponse (JObj [("error", JStr "Method not allowed")%string]) 405)
     else
       match json req with
       | Thrown _ =>
           ret (createResponse
                  (JObj [ ("error", JStr "Invalid request format");
                          ("details", JStr "Could not parse JSON body") ]%string)
                  400)
       | Returned reservationData =>
           t <- now ;;
           let validation := validateReservationData h t reservationData in
           if negb (valid validation) then
             ret (createResponse (validationErrorBody validation) 400)
           else
             stored <- attempt (persist h reservationData) ;;
             match stored with
             | Thrown error =>
                 ret (createResponse (databaseErrorBody error) 500)
             | Returned dbResult =>
                 set_emailSuccess false ;;;
                 try_catch (notify h reservationData ;;; ret tt)
                           (fun _ => ret tt) ;;;
                 emailSuccess <- get_emailSuccess ;;
                 ret (createResponse (successBody emailSuccess dbResult) 200)
             end
       end)
    (fun error =>
       ret (createResponse
              (JObj [ ("error", JStr "Internal server error");
                      ("message", JStr "An unexpected error occurred. Please try again later.");
                      ("details", JStr (message error)) ]%string)
              500)).

(** A request starts at some time [t] with nothing done yet. *)
Definition start (t : Z) : State := mkState t [] false.

Definition post (d : ReservationData) : Request := mkRequest "POST" (Returned d).

End Handler.

(* ================================================================= *)
(** ** Notions used to state the properties *)

Module Props.
Import Js Handler.

(** An operation is quiet when it leaves the bookkeeping of the retry loop
    alone: running it adds no invocation and no wait to the trace. *)
Definition quiet {T} (operation : M T) : Prop :=
  forall s,
    invocations (trace (snd (operation s))) = invocations (trace s) /\
    waits (trace (snd (operation s))) = waits (trace s).

(** The six properties every reservation must carry. *)
Definition required_fields : list (ReservationData -> option string) :=
  [name; email; date; time; guests; reservationType].

(** A payload is complete when each of them is a non-empty string. *)
Definition complete (d : ReservationData) : Prop :=
  forall f, In f required_fields -> truthy (f d) = true.

(** The same, as a check. *)
Definition all_present (d : ReservationData) : bool :=
  truthy (name d) && truthy (email d) && truthy (date d) && truthy (time d)
  && truthy (guests d) && truthy (reservationType d).

(** The e-mail address has the shape the pattern asks for. *)
Definition well_formed_email (d : ReservationData) : bool :=
  test emailRegex (interpolate (email d)).

(** The date of the payload, as [new Date] reads it, lies before the local
    midnight that starts the day of [t]. *)
Definition past_dated (h : Host) (t : Z) (d : ReservationData) : bool :=
  Date_lt (Date_new (other_formats h) (date d)) (setHours0 (LocalTZA h) t).

(** The date-only string [text] names the civil day numbered [day]. *)
Definition names_day (text : string) (day : Z) : Prop :=
  exists y m d, iso_calendar_date text = Some (y, m, d) /\ MakeDay y m d = day.

(** The payload with other event properties. *)
Definition with_event_details (d : ReservationData)
    (eventType attendees eventDescription : option string) : ReservationData :=
  mkReservationData (name d) (email d) (date d) (time d) (guests d)
    (message_ d) (reservationType d) eventType attendees eventDescription.

(** The answer to a payload that fails the validation. *)
Definition rejection (msg : string) : Response :=
  createResponse
    (JObj [ ("error", JStr "Validation error"); ("message", JStr msg) ]%string)
    400.

(** The failure of an insert call, if it failed: the client threw, or it
    returned an error. *)
Definition db_failure (o : DbOutcome) : option Error :=
  match o with
  | DbThrows e => Some e
  | DbReplies _ (Some error) => Some error
  | DbReplies _ None => None
  end.

(** The mail call failed: [fetch] threw, or the provider answered with a
    status outside 2xx. *)
Definition mail_refused (o : FetchOutcome) : bool :=
  match o with
  | FetchThrows _ => true
  | FetchReplies r => negb (ok r)
  end.

(** The storage events of a trace, in order. *)
Definition inserts (t : list Event) : list Event := filter is_insert t.

(** [s'] is [s] with more events after it. *)
Definition extends (s s' : State) : Prop :=
  exists later, trace s' = trace s ++ later.

(** [needle] occurs in [hay]. *)
Definition contains (needle hay : string) : Prop :=
  exists before after, hay = before +++ needle +++ after.

End Props.

(* ================================================================= *)
(** ** Sample payloads and hosts *)

Module Sample.
Import Js Handler.
#[local] Open Scope string_scope.

(** 2024-05-10T17:00:00Z, which is noon of 10 May 2024 at UTC-05:00. *)
Definition t0 : Z := 1715360400000.

Definition hour : Z := 3600000.

Definition table_for (day : string) : ReservationData :=
  mkReservationData (Some "Ana") (Some "ana@example.com") (Some day)
    (Some "19:30") (Some "4") None (Some "table") None None None.

Definition event_for (day : string) : ReservationData :=
  mkReservationData (Some "Ana") (Some "ana@example.com") (Some day)
    (Some "19:30") (Some "40") (Some "Boda") (Some "event")
    (Some "wedding") (Some "40") (Some "Banquete")%string.



(** An event reservation in which the three event properties are absent. *)
Definition bare_event : ReservationData :=
  mkReservationData (Some "Ana") (Some "ana@example.com") (Some "2024-05-11")
    (Some "19:30") (Some "40") None (Some "event") None None None.

Definition no_env : string -> option string := fun _ => None.
Definition standard_only : string -> option Z := fun _ => None.

Definition stored (id : Json) : DbOutcome :=
  DbReplies (Some [[("id", id)%string]]) None.

Definition refused (m : string) : DbOutcome :=
  DbReplies None (Some (mkError m)).

Definition delivered : FetchOutcome :=
  FetchReplies (mkFetchResponse true (Returned "{}"%string)
                  (Returned (JObj [("id", JStr "m1")%string]))).


(** A host on UTC whose storage assigns the id 7 and whose mail provider
    delivers. *)
Definition healthy : Host :=
  mkHost 0 standard_only no_env (fun _ _ => stored (JNum 7)) (fun _ _ => delivered).

(** The same host, five hours west of UTC. *)
Definition western : Host :=
  mkHost (- 5 * hour) standard_only no_env
    (fun _ _ => stored (JNum 7)) (fun _ _ => delivered).



(** A host whose mail provider accepts every request and answers with a
    body that is not JSON. *)
Definition garbled : Host :=
  mkHost 0 standard_only no_env (fun _ _ => stored (JNum 7))
    (fun _ _ => FetchReplies (mkFetchResponse true (Returned "accepted")
                                (Thrown (mkError "Unexpected token"))))%string.


(** An operation that fails on its first [n] invocations (counted in the
    trace) and then returns 42. *)
Definition flaky (n : nat) : M Z :=
  fun s =>
    if (invocations (trace s) <=? n)%nat
    then (Thrown (mkError ("failure #" +++ string_of_Z (Z.of_nat (invocations (trace s))))), s)
    else (Returned 42, s).

End Sample.
(* ================================================================= *)
(** ** The reservation form *)

(** The state and the handlers of the component [ReservationForm].  A
    handler runs on the state of the render it belongs to and the updates it
    queues are applied, in order, to that state: one submission is over
    before the next begins (the submit button is disabled meanwhile).  The
    request it sends is answered by the network, which is a parameter. *)

Module Form.
Import Js.
#[local] Open Scope string_scope.

(** An object whose values are strings, its keys in insertion order. *)
Definition Obj : Type := list (string * string).

Fixpoint get (key : string) (o : Obj) : option string :=
  match o with
  | [] => None
  | (k, v) :: rest => if String.eqb k key then Some v else get key rest
  end.

(** [{ ...o, [key]: value }] *)
Fixpoint assign (key value : string) (o : Obj) : Obj :=
  match o with
  | [] => [(key, value)]
  | (k, v) :: rest =>
      if String.eqb k key then (k, value) :: rest
      else (k, v) :: assign key value rest
  end.

Definition emptyForm : Obj :=
  [ ("name", EmptyString); ("email", EmptyString); ("time", EmptyString);
    ("guests", EmptyString); ("message", EmptyString);
    ("eventType", EmptyString); ("attendees", EmptyString);
    ("eventDescription", EmptyString) ].

(** The state of the component; [date] is the time value of the selected
    day, if one is selected. *)
Record FormState := mkFormState {
  date : option Z;
  reservationType : string;
  isSubmitting : bool;
  submissionAttempts : Z;
  formData : Obj
}.

Definition initial : FormState := mkFormState None "table" false 0 emptyForm.

Definition handleInputChange (name value : string) (st : FormState) : FormState :=
  mkFormState (date st) (reservationType st) (isSubmitting st)
    (submissionAttempts st) (assign name value (formData st)).

Definition handleSelectChange (name value : string) (st : FormState) : FormState :=
  mkFormState (date st) (reservationType st) (isSubmitting st)
    (submissionAttempts st) (assign name value (formData st)).

(** What the page provides: the language, its origin, and
    [format(date, "yyyy-MM-dd")]. *)
Record Browser := mkBrowser {
  language : string;
  origin : string;
  format : Z -> string
}.

Record Toast := mkToast {
  title : string;
  description : string;
  variant : option string
}.

(** An error as the handler reads it. *)
Record ErrorObj := mkErrorObj {
  ename : string;
  emessage : string
}.

Definition new_Error (m : string) : ErrorObj := mkErrorObj "Error" m.

(** The body of an answer, as far as the handler reads it:
    [emailSent] is [Some false] when the property is exactly [false]. *)
Record ResponseData := mkResponseData {
  rd_message : option string;
  rd_emailSent : option bool
}.

Record FormRequest := mkFormRequest {
  q_url : string;
  q_method : string;
  q_headers : list (string * string);
  q_body : string
}.

(** What awaiting [fetch] gives: it rejects (no connection, or the abort of
    the ten-second timer), or it resolves to a response with its [ok] flag
    and the outcome of its [json()]. *)
Inductive Reply : Type :=
| Rejected (e : ErrorObj)
| Responded (ok : bool) (json : ErrorObj + ResponseData).

Definition a_acute : string := String "225"%char EmptyString.
Definition e_acute : string := String "233"%char EmptyString.
Definition i_acute : string := String "237"%char EmptyString.
Definition o_acute : string := String "243"%char EmptyString.
Definition inv_excl : string := String "161"%char EmptyString.
Definition inv_quest : string := String "191"%char EmptyString.

Definition en (b : Browser) : bool := String.eqb (language b) "en".

Definition text_no_date (b : Browser) : string :=
  if en b then "Please select a date for your reservation."
  else "Por favor selecciona una fecha para tu reserva.".

Definition text_no_details (b : Browser) : string :=
  if en b then "Server returned an error without details"
  else "El servidor devolvi" +++ o_acute +++ " un error sin detalles".

Definition text_failed (b : Browser) : string :=
  if en b then "Failed to submit reservation. Please try again."
  else "Error al enviar la reserva. Por favor, int" +++ e_acute
       +++ "ntalo de nuevo.".

Definition text_success (b : Browser) : string :=
  if en b then "Reservation submitted successfully!"
  else inv_excl +++ "Reserva enviada exitosamente!".

Definition text_recorded_without_mail (b : Browser) : string :=
  if en b
  then "Your reservation was recorded, but we couldn't send a confirmation email. You'll hear from us soon!"
  else "Tu reserva fue registrada, pero no pudimos enviar un correo de confirmaci"
       +++ o_acute +++ "n. " +++ inv_excl +++ "Pronto tendr" +++ a_acute
       +++ "s noticias nuestras!".

Definition text_will_confirm (b : Browser) : string :=
  if en b then "We'll confirm your reservation shortly via email."
  else "Confirmaremos tu reserva en breve por correo electr" +++ o_acute
       +++ "nico.".

Definition text_submission_error (b : Browser) : string :=
  if en b then "Submission Error" else "Error de Env" +++ i_acute +++ "o".

Definition text_network (b : Browser) : string :=
  if en b
  then "There seems to be a network issue. Please check your internet connection and try again."
  else "Parece haber un problema de red. Por favor verifica tu conexi" +++ o_acute
       +++ "n a internet e int" +++ e_acute +++ "ntalo de nuevo.".

Definition text_problem (b : Browser) : string :=
  if en b then "There was a problem submitting your reservation. Please try again."
  else "Hubo un problema al enviar tu reserva. Por favor, int" +++ e_acute
       +++ "ntalo de nuevo.".

Definition text_need_help (b : Browser) : string :=
  if en b then "Need Help?" else inv_quest +++ "Necesitas ayuda?".

Definition text_contact (b : Browser) : string :=
  if en b
  then "You may want to contact us directly at (415) 555-0123 to make your reservation."
  else "Puedes contactarnos directamente al (415) 555-0123 para hacer tu reserva.".

Definition endpoint : string :=
  "https://euoujmsyxohoaogklndx.supabase.co/functions/v1/handle-reservation".

(** [{ ...formData, date: format(date, "yyyy-MM-dd"), reservationType }] *)
Definition reservationData (b : Browser) (st : FormState) (date : Z) : Obj :=
  assign "reservationType" (reservationType st)
    (assign "date" (format b date) (formData st)).

Definition json_of_obj (o : Obj) : Json :=
  JObj (map (fun kv => (fst kv, JStr (snd kv))) o).

(** The request of a submission; its abort signal and its CORS mode are
    settings of the call, what they lead to is in the reply. *)
Definition request (b : Browser) (st : FormState) (date : Z) : FormRequest :=
  mkFormRequest endpoint "POST"
    [ ("Content-Type", "application/json"); ("Origin", origin b) ]
    (JSON_stringify (json_of_obj (reservationData b st date))).

(** The [try] block up to the answer: what is thrown, or the body of an
    answer whose status is 2xx. *)
Definition exchange (b : Browser) (reply : Reply) : ErrorObj + ResponseData :=
  match reply with
  | Rejected e => inl e
  | Responded ok json =>
      if negb ok then
        let responseData :=
          match json with
          | inl _ => mkResponseData (Some (text_no_details b)) None
          | inr data => data
          end in
        inl (new_Error (or_else (rd_message responseData) (text_failed b)))
      else json
  end.

Definition isNetworkError (error : ErrorObj) : bool :=
  String.eqb (ename error) "TypeError"
  && (String.eqb (emessage error) "Failed to fetch"
      || String.eqb (emessage error) "NetworkError"
      || String.eqb (emessage error) "The user aborted a request").

Definition successToast (b : Browser) (responseData : ResponseData) : Toast :=
  mkToast (text_success b)
    (match rd_emailSent responseData with
     | Some false => text_recorded_without_mail b
     | _ => text_will_confirm b
     end)
    None.

Definition errorToast (b : Browser) (error : ErrorObj) : Toast :=
  mkToast (text_submission_error b)
    (if isNetworkError error then text_network b
     else or_else (Some (emessage error)) (text_problem b))
    (Some "destructive").

Definition helpToast (b : Browser) : Toast :=
  mkToast (text_need_help b) (text_contact b) None.

(** [handleSubmit]: the state after the submission, the toasts shown and
    the requests sent, in order. *)
Definition handleSubmit (b : Browser) (network : FormRequest -> Reply)
    (st : FormState) : FormState * list Toast * list FormRequest :=
  match date st with
  | None =>
      (st, [mkToast "Error" (text_no_date b) (Some "destructive")], [])
  | Some date =>
      let q := request b st date in
      match exchange b (network q) with
      | inr responseData =>
          (mkFormState None "table" false 0 emptyForm,
           [successToast b responseData], [q])
      | inl error =>
          (mkFormState (Some date) (reservationType st) false
             (submissionAttempts st + 1) (formData st),
           errorToast b error
             :: (if submissionAttempts st >=? 2 then [helpToast b] else []),
           [q])
      end
  end.

(** A reply that makes the submission fail: the request was rejected, the
    status is outside 2xx, or the body of a 2xx answer is not JSON. *)
Definition failed (reply : Reply) : bool :=
  match reply with
  | Rejected _ => true
  | Responded ok (inl _) => true
  | Responded ok (inr _) => negb ok
  end.

(** Submissions one after the other, each with the network of its time;
    the toasts of each are kept apart. *)
Fixpoint submit_each (b : Browser) (networks : list (FormRequest -> Reply))
    (st : FormState) : FormState * list (list Toast) :=
  match networks with
  | [] => (st, [])
  | network :: rest =>
      let '(st', toasts, _) := handleSubmit b network st in
      let (final, later) := submit_each b rest st' in
      (final, toasts :: later)
  end.

End Form.

(* ================================================================= *)
(** ** Notions used to describe whole runs *)

Module Outline.
Import Js Handler Props.

(** The waits of a loop that fails [n] times in a row: [delay * 1], ...,
    [delay * (n - 1)]; no wait follows the last failure. *)
Definition backoff (delay : Z) (n : nat) : list Z :=
  map (fun k => delay * Z.of_nat k) (seq 1 (n - 1)).

(** An operation that fails whenever it is invoked. *)
Definition always_fails {T} (operation : M T) : Prop :=
  forall s, exists e, fst (operation s) = Thrown e.

(** The rows read back by an insert call that did not fail. *)
Definition db_data (o : DbOutcome) : option (list StoredRow) :=
  match o with
  | DbThrows _ => None
  | DbReplies data _ => data
  end.

(** What the e-mail closure makes of the outcome of its [fetch]. *)
Definition mail_result (o : FetchOutcome) : Outcome Json :=
  match o with
  | FetchThrows e => Thrown e
  | FetchReplies r =>
      if ok r then json_ r
      else match text r with
           | Thrown e => Thrown e
           | Returned emailError =>
               Thrown (mkError ("Email sending failed: " +++ emailError))
           end
  end.

(** The three insert calls a request can make, each with the row it would
    send: the clock has moved by the waits made before it. *)
Definition storage_tries (h : Host) (d : ReservationData) (t : Z) : list DbOutcome :=
  [ storage h 0 (row_of d t);
    storage h 1 (row_of d (t + 500));
    storage h 2 (row_of d (t + 500 + 1000)) ].

(** The three mail calls a request can make. *)
Definition mail_tries (h : Host) (d : ReservationData) : list FetchOutcome :=
  [ mail h 0 (emailRequest h d);
    mail h 1 (emailRequest h d);
    mail h 2 (emailRequest h d) ].

(** The first try that did not fail, or else the last failure. *)
Fixpoint first_success (tries : list DbOutcome) (lastError : option Error)
  : Outcome (option (list StoredRow)) :=
  match tries with
  | [] => Thrown (match lastError with Some e => e | None => generic_failure end)
  | o :: rest =>
      match db_failure o with
      | None => Returned (db_data o)
      | Some e => first_success rest (Some e)
      end
  end.

(** The answer to a valid payload, from the outcomes of the calls. *)
Definition answer (stored : Outcome (option (list StoredRow)))
    (mails : list FetchOutcome) : Response :=
  match stored with
  | Thrown error => createResponse (databaseErrorBody error) 500
  | Returned dbResult =>
      createResponse (successBody (negb (forallb mail_refused mails)) dbResult) 200
  end.

(** The state after the e-mail closure has run on the outcome [o] of its
    [fetch]: the call is in the trace, and [emailSuccess] is set when the
    provider answered with a 2xx status. *)
Definition mailed (h : Host) (d : ReservationData) (o : FetchOutcome) (s : State)
  : State :=
  mkState (clock s) (trace s ++ [EvFetch (emailRequest h d)])
          (emailSuccess s || negb (mail_refused o)).

(** How many of the tries are made: up to the first that does not fail,
    respectively up to the first whose closure returns. *)
Fixpoint inserts_made (tries : list DbOutcome) : nat :=
  match tries with
  | [] => 0
  | o :: rest =>
      S (match db_failure o with None => 0 | Some _ => inserts_made rest end)
  end.

Fixpoint mails_made (tries : list FetchOutcome) : nat :=
  match tries with
  | [] => 0
  | o :: rest =>
      S (match mail_result o with Returned _ => 0 | Thrown _ => mails_made rest end)
  end.

(** The trace of a storage step that makes [n] insert calls, and of an
    e-mail step that makes [n] mail calls. *)
Definition storage_part (d : ReservationData) (t : Z) (n : nat) : list Event :=
  firstn (3 * n - 1)
    [ EvInvoke; EvInsert (row_of d t); EvSleep 500;
      EvInvoke; EvInsert (row_of d (t + 500)); EvSleep 1000;
      EvInvoke; EvInsert (row_of d (t + 500 + 1000)) ].

Definition mail_part (h : Host) (d : ReservationData) (n : nat) : list Event :=
  firstn (3 * n - 1)
    [ EvInvoke; EvFetch (emailRequest h d); EvSleep 500;
      EvInvoke; EvFetch (emailRequest h d); EvSleep 1000;
      EvInvoke; EvFetch (emailRequest h d) ].

(** The total of the waits in a trace. *)
Definition waited (t : list Event) : Z := fold_right Z.add 0 (waits t).

(** What an event of a request for the payload [d] may be. *)
Definition event_of (h : Host) (d : ReservationData) (ev : Event) : Prop :=
  match ev with
  | EvInvoke => True
  | EvSleep ms => ms = 500 \/ ms = 1000
  | EvInsert row => exists created_at, row = row_of d created_at
  | EvFetch req => req = emailRequest h d
  end.

End Outline.

(* ================================================================= *)
(** ** More sample operations, hosts and pages *)

Module Cases.
Import Js Handler Form.
#[local] Open Scope string_scope.

(** An operation that fails whenever it is invoked. *)
Definition broken : M Z := fun s => (Thrown (mkError "down"), s).

(** An operation that returns at once. *)
Definition sound : M Z := fun s => (Returned 7, s).

(** A host whose storage refuses the first insert of a request and accepts
    the second, and whose mail provider delivers. *)
Definition busy_once : Host :=
  mkHost 0 Sample.standard_only Sample.no_env
    (fun k _ => match k with
                | O => Sample.refused "busy"
                | _ => Sample.stored (JNum 8)
                end)
    (fun _ _ => Sample.delivered).

(** A page in English that formats every date as 11 May 2024. *)
Definition page : Browser :=
  mkBrowser "en" "https://example.com" (fun _ => "2024-05-11").

(** A form filled for a table, with a day selected. *)
Definition filled : FormState :=
  mkFormState (Some 1715385600000) "table" false 0
    (assign "guests" "4" (assign "time" "19:30"
       (assign "email" "ana@example.com" (assign "name" "Ana" emptyForm)))).

(** The same form with no day selected. *)
Definition undated : FormState :=
  mkFormState None "table" false 0 (formData filled).

Definition offline : FormRequest -> Reply :=
  fun _ => Rejected (mkErrorObj "TypeError" "Failed to fetch").

Definition timed_out : FormRequest -> Reply :=
  fun _ => Rejected (mkErrorObj "AbortError" "The user aborted a request.").

Definition turned_down : FormRequest -> Reply :=
  fun _ => Responded false
             (inr (mkResponseData (Some "Invalid email format.") None)).

Definition taken : FormRequest -> Reply :=
  fun _ => Responded true
             (inr (mkResponseData (Some "Reservation submitted successfully")
                     (Some true))).

End Cases.


(* ================================================================= *)
(** ** What a trace shows after each effect *)

Module TraceFacts.
Import Js Handler.

Lemma waits_app (t u : list Event) : waits (t ++ u) = waits t ++ waits u.
Proof.
  induction t as [| ev t IH]; simpl; [reflexivity |].
  destruct ev; simpl; rewrite IH; reflexivity.
Qed.

Lemma invocations_app (t u : list Event) :
  invocations (t ++ u) = (invocations t + invocations u)%nat.
Proof. unfold invocations. rewrite filter_app, length_app. reflexivity. Qed.

Lemma storage_calls_app (t u : list Event) :
  storage_calls (t ++ u) = (storage_calls t + storage_calls u)%nat.
Proof. unfold storage_calls. rewrite filter_app, length_app. reflexivity. Qed.

Lemma mail_calls_app (t u : list Event) :
  mail_calls (t ++ u) = (mail_calls t + mail_calls u)%nat.
Proof. unfold mail_calls. rewrite filter_app, length_app. reflexivity. Qed.

Lemma invocations_invoked (s : State) :
  invocations (trace (log EvInvoke s)) = S (invocations (trace s)).
Proof.
  unfold log; cbn [trace]. rewrite invocations_app. cbn. lia.
Qed.

Lemma waits_invoked (s : State) : waits (trace (log EvInvoke s)) = waits (trace s).
Proof.
  unfold log; cbn [trace]. rewrite waits_app. cbn. apply app_nil_r.
Qed.

Lemma invocations_slept (ms : Z) (s : State) :
  invocations (trace (slept ms s)) = invocations (trace s).
Proof.
  unfold slept; cbn [trace]. rewrite invocations_app. cbn. lia.
Qed.

Lemma waits_slept (ms : Z) (s : State) :
  waits (trace (slept ms s)) = waits (trace s) ++ [ms].
Proof. unfold slept; cbn [trace]. rewrite waits_app. reflexivity. Qed.

End TraceFacts.

(* ================================================================= *)
(** ** The bounded retry policy *)

Module RetryPolicy.
Import Js Handler Props TraceFacts.

(** One turn of the loop. *)
Lemma retry_from_step {T} (operation : M T) (maxRetries delay : Z)
    (remaining : nat) (attempt : Z) (lastError : option Error) (s : State) :
  retry_from operation maxRetries delay (S remaining) attempt lastError s =
  match operation (log EvInvoke s) with
  | (Returned v, s') => (Returned v, s')
  | (Thrown error, s') =>
      retry_from operation maxRetries delay remaining (attempt + 1) (Some error)
        (if attempt <? maxRetries - 1 then slept (delay * (attempt + 1)) s' else s')
  end.
Proof.
  cbn [retry_from]. unfold try_catch, bind, emit, sleep, ret.
  destruct (operation (log EvInvoke s)) as [[v | error] s']; [reflexivity |].
  destruct (attempt <? maxRetries - 1); reflexivity.
Qed.

(** The loop of [retryOperation] is entered with as many turns to go as
    the loop condition allows: after [k] turns none is left exactly when
    [k < maxRetries] is false. *)
Lemma loop_condition (maxRetries : Z) (k : nat) :
  (k <= Z.to_nat maxRetries)%nat ->
  (Z.to_nat maxRetries - k = 0)%nat <-> (Z.of_nat k <? maxRetries) = false.
Proof.
  intro B. rewrite Z.ltb_ge. lia.
Qed.

(** Unfolds one turn of a loop whose attempt number and bound are
    numerals, and decides whether a wait follows a failure. *)
Ltac retry_turn :=
  rewrite retry_from_step;
  match goal with
  | |- context [?a <? ?b - 1] =>
      let v := eval vm_compute in (a <? b - 1) in
      change (a <? b - 1) with v
  end;
  repeat match goal with
    | |- context [?a + 1] =>
        let v := eval vm_compute in (a + 1) in
        progress change (a + 1) with v
    end;
  cbv iota.

(** Leaving the loop: the last failure is thrown. *)
Lemma retry_from_done {T} (operation : M T) (maxRetries delay attempt : Z)
    (lastError : option Error) (s : State) :
  retry_from operation maxRetries delay 0 attempt lastError s =
  (Thrown (match lastError with Some e => e | None => generic_failure end), s).
Proof. reflexivity. Qed.

Section AnyBound.

Variable T : Type.
Variable operation : M T.
Variables maxRetries delay : Z.
Hypothesis operation_quiet : quiet operation.

(** The loop invokes the operation at most once per turn. *)
Lemma retry_from_invocations (remaining : nat) :
  forall attempt lastError s,
    (invocations (trace (snd (retry_from operation maxRetries delay remaining
                                attempt lastError s)))
     <= invocations (trace s) + remaining)%nat.
Proof.
  induction remaining as [| n IH]; intros attempt lastError s.
  - rewrite retry_from_done. simpl. lia.
  - rewrite retry_from_step.
    destruct (operation_quiet (log EvInvoke s)) as [I _].
    rewrite invocations_invoked in I.
    destruct (operation (log EvInvoke s)) as [[v | error] s']; simpl in I.
    + simpl. lia.
    + eapply Nat.le_trans; [apply IH |].
      destruct (attempt <? maxRetries - 1);
        [rewrite invocations_slept |]; lia.
Qed.

(** The operation is never invoked more than [maxRetries] times. *)
Lemma retryOperation_bounded (s : State) :
  (invocations (trace (snd (retryOperation operation maxRetries delay s)))
   <= invocations (trace s) + Z.to_nat maxRetries)%nat.
Proof. apply retry_from_invocations. Qed.

(** With no attempt allowed, the generic failure is thrown and the
    operation is not invoked. *)
Lemma retryOperation_no_attempt (s : State) :
  maxRetries <= 0 ->
  retryOperation operation maxRetries delay s = (Thrown generic_failure, s).
Proof.
  intro B. unfold retryOperation.
  replace (Z.to_nat maxRetries) with 0%nat by lia. reflexivity.
Qed.

End AnyBound.

Section ThreeAttempts.

Variable T : Type.
Variable operation : M T.
Variable delay : Z.
Hypothesis operation_quiet : quiet operation.




End ThreeAttempts.

Lemma flaky_quiet (n : nat) : quiet (Sample.flaky n).
Proof.
  intro s. unfold Sample.flaky.
  destruct (invocations (trace s) <=? n)%nat; split; reflexivity.
Qed.


End RetryPolicy.

(* ================================================================= *)
(** ** The matcher agrees with the reading of a pattern *)

Module RegexFacts.
Import Js.

Lemma append_empty_r (s : string) : s +++ EmptyString = s.
Proof. induction s as [| c s IH]; simpl; [| rewrite IH]; reflexivity. Qed.

Lemma append_assoc (a b c : string) : (a +++ b) +++ c = a +++ b +++ c.
Proof.
  induction a as [| ch a IH]; simpl; [reflexivity | rewrite IH; reflexivity].
Qed.

Lemma append_is_empty (a b : string) :
  a +++ b = EmptyString -> a = EmptyString /\ b = EmptyString.
Proof. destruct a; simpl; [auto | discriminate]. Qed.

Lemma cat_inv (r1 r2 : Regex) (s : string) :
  Matches (Cat r1 r2) s ->
  exists s1 s2, s = s1 +++ s2 /\ Matches r1 s1 /\ Matches r2 s2.
Proof. intro M. inversion M; subst. eauto. Qed.

Lemma alt_inv (r1 r2 : Regex) (s : string) :
  Matches (Alt r1 r2) s -> Matches r1 s \/ Matches r2 s.
Proof. intro M. inversion M; subst; auto. Qed.

Lemma class_inv (p : ascii -> bool) (s : string) :
  Matches (Class p) s -> exists c, s = String c EmptyString /\ p c = true.
Proof. intro M. inversion M; subst. eauto. Qed.

Lemma nullable_matches (r : Regex) : nullable r = true <-> Matches r EmptyString.
Proof.
  induction r as [| | p | r1 IH1 r2 IH2 | r1 IH1 r2 IH2 | r IH]; simpl.
  - split; [discriminate | intro M; inversion M].
  - split; [constructor | reflexivity].
  - split; [discriminate | intro M; inversion M].
  - rewrite andb_true_iff, IH1, IH2. split.
    + intros [M1 M2]. exact (MatchCat _ _ _ _ M1 M2).
    + intro M. apply cat_inv in M. destruct M as (s1 & s2 & E & M1 & M2).
      symmetry in E. apply append_is_empty in E. destruct E; subst. auto.
  - rewrite orb_true_iff, IH1, IH2. split.
    + intros [M | M]; [apply MatchAltL | apply MatchAltR]; exact M.
    + apply alt_inv.
  - split; [constructor | reflexivity].
Qed.

(** A non-empty match of a star starts with a non-empty match of its
    body. *)
Lemma star_first (r : Regex) (c : ascii) (s : string) :
  Matches (Star r) (String c s) ->
  exists s1 s2, s = s1 +++ s2 /\ Matches r (String c s1) /\ Matches (Star r) s2.
Proof.
  intro M. remember (Star r) as r' eqn:Er. remember (String c s) as w eqn:Ew.
  induction M as [| | | | | | r0 s1 s2 M1 _ M2 IH2]; try discriminate.
  inversion Er; subst r0.
  destruct s1 as [| c1 s1]; simpl in Ew.
  - apply IH2; [reflexivity | exact Ew].
  - inversion Ew; subst. exists s1, s2. auto.
Qed.

Lemma deriv_matches (r : Regex) :
  forall c s, Matches (deriv c r) s <-> Matches r (String c s).
Proof.
  induction r as [| | p | r1 IH1 r2 IH2 | r1 IH1 r2 IH2 | r IH]; intros c s; simpl.
  - split; intro M; inversion M.
  - split; intro M; inversion M.
  - destruct (p c) eqn:P; split; intro M.
    + inversion M; subst. constructor. exact P.
    + apply class_inv in M. destruct M as (c' & E & _). inversion E; subst.
      constructor.
    + inversion M.
    + apply class_inv in M. destruct M as (c' & E & P'). inversion E; subst.
      congruence.
  - assert (Back : Matches (Cat r1 r2) (String c s) ->
              (exists s1 s2, s = s1 +++ s2 /\ Matches (deriv c r1) s1 /\ Matches r2 s2)
              \/ (Matches r1 EmptyString /\ Matches (deriv c r2) s)).
    { intro M. apply cat_inv in M. destruct M as (s1 & s2 & E & M1 & M2).
      destruct s1 as [| c1 s1]; simpl in E.
      - right. subst s2. split; [exact M1 | apply IH2; exact M2].
      - inversion E; subst. left. exists s1, s2.
        split; [reflexivity |]. split; [apply IH1; exact M1 | exact M2]. }
    assert (Front : Matches (Cat (deriv c r1) r2) s ->
              Matches (Cat r1 r2) (String c s)).
    { intro M. apply cat_inv in M. destruct M as (s1 & s2 & -> & M1 & M2).
      apply IH1 in M1. exact (MatchCat _ _ (String c s1) s2 M1 M2). }
    destruct (nullable r1) eqn:N; split; intro M.
    + apply alt_inv in M. destruct M as [M | M]; [exact (Front M) |].
      apply nullable_matches in N. apply IH2 in M.
      exact (MatchCat _ _ EmptyString _ N M).
    + destruct (Back M) as [(s1 & s2 & -> & M1 & M2) | [_ M2]].
      * apply MatchAltL. exact (MatchCat _ _ _ _ M1 M2).
      * apply MatchAltR. exact M2.
    + exact (Front M).
    + destruct (Back M) as [(s1 & s2 & -> & M1 & M2) | [M1 _]].
      * exact (MatchCat _ _ _ _ M1 M2).
      * apply nullable_matches in M1. congruence.
  - split; intro M.
    + apply alt_inv in M.
      destruct M as [M | M]; [apply MatchAltL; apply IH1 | apply MatchAltR; apply IH2];
        exact M.
    + apply alt_inv in M.
      destruct M as [M | M]; [apply MatchAltL; apply IH1 | apply MatchAltR; apply IH2];
        exact M.
  - split; intro M.
    + apply cat_inv in M. destruct M as (s1 & s2 & -> & M1 & M2).
      apply IH in M1. exact (MatchStarMore _ (String c s1) s2 M1 M2).
    + apply star_first in M. destruct M as (s1 & s2 & -> & M1 & M2).
      apply IH in M1. exact (MatchCat _ _ _ _ M1 M2).
Qed.

(** [test] decides [Matches]. *)
Lemma test_matches (s : string) : forall r, test r s = true <-> Matches r s.
Proof.
  induction s as [| c s IH]; intro r; simpl.
  - apply nullable_matches.
  - rewrite IH. apply deriv_matches.
Qed.

(** Zero or more, and one or more, code units of a class. *)
Lemma star_class (p : ascii -> bool) (s : string) :
  Matches (Star (Class p)) s <-> all_in p s = true.
Proof.
  split.
  - intro M. remember (Star (Class p)) as r eqn:Er.
    induction M as [| | | | | | r0 s1 s2 M1 _ M2 IH2]; try discriminate.
    + reflexivity.
    + inversion Er; subst r0. apply class_inv in M1.
      destruct M1 as (c & -> & P). simpl.
      rewrite P, IH2 by reflexivity. reflexivity.
  - induction s as [| c s IH]; simpl; intro A.
    + constructor.
    + apply andb_true_iff in A. destruct A as [P A].
      exact (MatchStarMore _ (String c EmptyString) s (MatchClass p c P) (IH A)).
Qed.

Lemma plus_class (p : ascii -> bool) (s : string) :
  Matches (Plus (Class p)) s <-> s <> EmptyString /\ all_in p s = true.
Proof.
  unfold Plus. split.
  - intro M. apply cat_inv in M. destruct M as (s1 & s2 & -> & M1 & M2).
    apply class_inv in M1. destruct M1 as (c & -> & P).
    apply star_class in M2. simpl.
    split; [discriminate |]. rewrite P, M2. reflexivity.
  - intros [Ne A]. destruct s as [| c s]; [contradiction |].
    simpl in A. apply andb_true_iff in A. destruct A as [P A].
    apply star_class in A.
    exact (MatchCat _ _ (String c EmptyString) s (MatchClass p c P) A).
Qed.

Lemma lit_matches (c : ascii) (s : string) :
  Matches (Lit c) s <-> s = String c EmptyString.
Proof.
  unfold Lit. split.
  - intro M. apply class_inv in M. destruct M as (c' & -> & E).
    apply Ascii.eqb_eq in E. subst. reflexivity.
  - intros ->. constructor. apply Ascii.eqb_refl.
Qed.

End RegexFacts.

(* ================================================================= *)
(** ** Validation *)

Module ValidationFacts.
Import Js Handler Props RegexFacts.

(** The pattern on a few addresses. *)
Example email_accepted :
  map (test emailRegex) ["ana@example.com"; "a@b.c"; "a.b@c.d.e"]%string
  = [true; true; true].
Proof. reflexivity. Qed.

Example email_refused :
  map (test emailRegex)
    ["ana.example.com"; "ana@example"; "a na@example.com"; "a@b@c.d"; "@b.c";
     "a@.c"; "a@b."; EmptyString]%string
  = [false; false; false; false; false; false; false; false].
Proof. reflexivity. Qed.

(** What the pattern asks of an address: a local part, an at sign, a
    domain and, after a dot, an ending, each of them non-empty and free of
    white space and of at signs. *)
Lemma emailRegex_shape (s : string) :
  test emailRegex s = true <->
  exists a b c,
    s = a +++ "@" +++ b +++ "." +++ c
    /\ (a <> EmptyString /\ all_in not_space_or_at a = true)
    /\ (b <> EmptyString /\ all_in not_space_or_at b = true)
    /\ (c <> EmptyString /\ all_in not_space_or_at c = true).
Proof.
  rewrite test_matches. unfold emailRegex. split.
  - intro M.
    apply cat_inv in M. destruct M as (a & s1 & -> & Ma & M).
    apply cat_inv in M. destruct M as (x & s2 & -> & Mx & M).
    apply cat_inv in M. destruct M as (b & s3 & -> & Mb & M).
    apply cat_inv in M. destruct M as (y & c & -> & My & Mc).
    apply lit_matches in Mx. apply lit_matches in My. subst x y.
    apply plus_class in Ma. apply plus_class in Mb. apply plus_class in Mc.
    exists a, b, c. auto.
  - intros (a & b & c & -> & Ha & Hb & Hc).
    apply plus_class in Ha. apply plus_class in Hb. apply plus_class in Hc.
    apply MatchCat; [exact Ha |].
    apply MatchCat; [apply lit_matches; reflexivity |].
    apply MatchCat; [exact Hb |].
    apply MatchCat; [apply lit_matches; reflexivity | exact Hc].
Qed.

(** Day numbers and date-only strings. *)
Example day_numbers :
  MakeDay 1970 1 1 = 0 /\ MakeDay 1969 12 31 = -1 /\ MakeDay 2000 3 1 = 11017
  /\ MakeDay 2024 5 10 = 19853.
Proof. repeat split; reflexivity. Qed.

Example date_only_strings :
  iso_calendar_date "2024-02-29" = Some (2024, 2, 29)
  /\ iso_calendar_date "2023-02-29" = None
  /\ iso_calendar_date "2024-13-01" = None
  /\ iso_calendar_date "not-a-date" = None
  /\ Date_parse (fun _ => None) "2024-05-10" = Some 1715299200000.
Proof. repeat split; reflexivity. Qed.

Lemma complete_all (d : ReservationData) :
  complete d ->
  truthy (name d) = true /\ truthy (email d) = true /\ truthy (date d) = true /\
  truthy (time d) = true /\ truthy (guests d) = true /\
  truthy (reservationType d) = true.
Proof.
  intro C. repeat split; apply C; simpl; tauto.
Qed.

Lemma complete_iff (d : ReservationData) : complete d <-> all_present d = true.
Proof.
  split.
  - intro C. destruct (complete_all d C) as (N & E & D & T & G & R).
    unfold all_present. rewrite N, E, D, T, G, R. reflexivity.
  - unfold all_present. intros A f I.
    repeat (apply andb_true_iff in A; destruct A as [A ?]).
    simpl in I.
    repeat (destruct I as [<- | I]; [assumption |]). contradiction.
Qed.


Lemma validate_complete (h : Host) (t : Z) (d : ReservationData) :
  complete d ->
  validateReservationData h t d =
  if negb (well_formed_email d) then mkValidation false (Some msg_email)
  else if past_dated h t d then mkValidation false (Some msg_past)
  else mkValidation true None.
Proof.
  intro C. destruct (complete_all d C) as (N & E & D & T & G & R).
  unfold validateReservationData. rewrite N, E, D, T, G, R. reflexivity.
Qed.

(** A POST whose payload fails the validation is answered at once. *)
Lemma serve_invalid (h : Host) (d : ReservationData) (s : State) (msg : string) :
  validateReservationData h (clock s) d = mkValidation false (Some msg) ->
  serve h (post d) s = (Returned (rejection msg), s).
Proof.
  intro V. unfold serve, post, try_catch, bind, now, ret. simpl.
  rewrite V. reflexivity.
Qed.

Lemma serve_valid_verdict (h : Host) (t : Z) (d : ReservationData) :
  complete d -> well_formed_email d = true -> past_dated h t d = false ->
  validateReservationData h t d = mkValidation true None.
Proof.
  intros C E P. rewrite (validate_complete h t d C), E, P. reflexivity.
Qed.

(** *** Calendar days *)

Lemma Date_new_day (other : string -> option Z) (text : string) (day : Z) :
  names_day text day -> Date_new other (Some text) = Some (day * msPerDay).
Proof.
  intros (y & m & d & P & <-). simpl. unfold Date_parse. rewrite P. reflexivity.
Qed.

(** On a host whose local time is UTC or east of it, a date-only string is
    past exactly when its day is before the local day of [t]. *)
Lemma past_dated_iff_earlier_day (h : Host) (t : Z) (d : ReservationData)
    (text : string) (day : Z) :
  date d = Some text -> names_day text day ->
  0 <= LocalTZA h < msPerDay ->
  past_dated h t d = true <-> day < local_day (LocalTZA h) t.
Proof.
  intros D N B. unfold past_dated. rewrite D, (Date_new_day _ _ _ N).
  unfold Date_lt, setHours0, local_day. rewrite Z.ltb_lt.
  set (today := (t + LocalTZA h) / msPerDay).
  unfold msPerDay in *. lia.
Qed.

(** Whatever the time zone (offsets are below a day), a date-only string
    for a day before the local day of [t] is past. *)
Lemma earlier_day_past_dated (h : Host) (t : Z) (d : ReservationData)
    (text : string) (day : Z) :
  date d = Some text -> names_day text day ->
  LocalTZA h < msPerDay ->
  day < local_day (LocalTZA h) t -> past_dated h t d = true.
Proof.
  intros D N B L. unfold past_dated. rewrite D, (Date_new_day _ _ _ N).
  unfold Date_lt, setHours0. apply Z.ltb_lt.
  unfold local_day in L. set (today := (t + LocalTZA h) / msPerDay) in *.
  unfold msPerDay in *. lia.
Qed.

(** West of UTC the date of the local day itself is past. *)
Lemma same_day_past_dated_west (h : Host) (t : Z) (d : ReservationData)
    (text : string) :
  date d = Some text -> names_day text (local_day (LocalTZA h) t) ->
  LocalTZA h < 0 -> past_dated h t d = true.
Proof.
  intros D N B. unfold past_dated. rewrite D, (Date_new_day _ _ _ N).
  unfold Date_lt, setHours0, local_day. apply Z.ltb_lt. lia.
Qed.

End ValidationFacts.

(* ================================================================= *)
(** ** The steps of the handler *)

Module HandlerFacts.
Import Js Handler Props TraceFacts RetryPolicy.

(** *** The trace only grows *)

Lemma extends_refl (s : State) : extends s s.
Proof. exists []. symmetry. apply app_nil_r. Qed.

Lemma extends_trans (s1 s2 s3 : State) :
  extends s1 s2 -> extends s2 s3 -> extends s1 s3.
Proof.
  intros [l1 E1] [l2 E2]. exists (l1 ++ l2).
  rewrite E2, E1. symmetry. apply app_assoc.
Qed.

Lemma extends_log (ev : Event) (s : State) : extends s (log ev s).
Proof. exists [ev]. reflexivity. Qed.

Lemma extends_slept (ms : Z) (s : State) : extends s (slept ms s).
Proof. exists [EvSleep ms]. reflexivity. Qed.

Create HintDb trace.
#[local] Hint Resolve extends_refl extends_log extends_slept : trace.

Lemma insertReservation_state (h : Host) (d : ReservationData) (s : State) :
  snd (insertReservation h d s) = log (EvInsert (row_of d (clock s))) s.
Proof.
  unfold insertReservation, bind, now.
  destruct (storage h _ _) as [e | data [error |]]; reflexivity.
Qed.

Lemma sendEmail_extends (h : Host) (d : ReservationData) (s : State) :
  extends s (snd (sendEmail h d s)).
Proof.
  exists [EvFetch (emailRequest h d)].
  unfold sendEmail.
  destruct (mail h _ _) as [e | r]; [reflexivity |].
  destruct (ok r); simpl; [reflexivity |].
  destruct (text r); reflexivity.
Qed.

Lemma retry_from_extends {T} (operation : M T) (maxRetries delay : Z) :
  (forall s, extends s (snd (operation s))) ->
  forall remaining attempt lastError s,
    extends s (snd (retry_from operation maxRetries delay remaining attempt lastError s)).
Proof.
  intros Op. induction remaining as [| n IH]; intros attempt lastError s.
  - rewrite retry_from_done. apply extends_refl.
  - rewrite retry_from_step.
    pose proof (Op (log EvInvoke s)) as Ex.
    destruct (operation (log EvInvoke s)) as [[v | error] s']; simpl in Ex.
    + simpl. eapply extends_trans; [apply extends_log | exact Ex].
    + eapply extends_trans; [apply extends_log |].
      eapply extends_trans; [exact Ex |].
      eapply extends_trans; [| apply IH].
      destruct (attempt <? maxRetries - 1); auto with trace.
Qed.

Lemma notify_extends (h : Host) (d : ReservationData) (s : State) :
  extends s (snd (notify h d s)).
Proof. apply retry_from_extends. apply sendEmail_extends. Qed.

Lemma insertReservation_extends (h : Host) (d : ReservationData) (s : State) :
  extends s (snd (insertReservation h d s)).
Proof. rewrite insertReservation_state. apply extends_log. Qed.

Lemma persist_extends (h : Host) (d : ReservationData) (s : State) :
  extends s (snd (persist h d s)).
Proof. apply retry_from_extends. apply insertReservation_extends. Qed.

(** *** An accepted payload *)

(** Once the validation has passed, the handler stores, then notifies, then
    answers; nothing reaches the outer guard. *)
Lemma serve_accepted (h : Host) (d : ReservationData) (s : State) :
  valid (validateReservationData h (clock s) d) = true ->
  serve h (post d) s =
  match persist h d s with
  | (Thrown error, s1) =>
      (Returned (createResponse (databaseErrorBody error) 500), s1)
  | (Returned dbResult, s1) =>
      let s2 := snd ((set_emailSuccess false ;;; notify h d) s1) in
      (Returned (createResponse (successBody (emailSuccess s2) dbResult) 200), s2)
  end.
Proof.
  intro V. unfold serve, post, try_catch, bind, now, ret, attempt. simpl.
  rewrite V. simpl.
  destruct (persist h d s) as [[dbResult | error] s1]; [| reflexivity].
  unfold set_emailSuccess, get_emailSuccess.
  destruct (notify h d _) as [[j | e] s2]; reflexivity.
Qed.

(** The first thing an accepted payload causes is the insert of its row. *)
Lemma persist_begins (h : Host) (d : ReservationData) (t : Z) :
  exists later,
    trace (snd (persist h d (start t))) = EvInvoke :: EvInsert (row_of d t) :: later.
Proof.
  unfold persist, retryOperation, MAX_RETRIES. change (Z.to_nat 3) with 3%nat.
  rewrite retry_from_step.
  pose proof (insertReservation_state h d (log EvInvoke (start t))) as St.
  destruct (insertReservation h d (log EvInvoke (start t))) as [[v | error] s'];
    simpl in St; subst s'.
  - exists []. reflexivity.
  - match goal with
    | |- context [retry_from ?o ?m ?dl ?n ?a ?le ?s] =>
        destruct (retry_from_extends o m dl (insertReservation_extends h d) n a le s)
          as [later E]
    end.
    rewrite E. simpl. eexists. reflexivity.
Qed.

Lemma accepted_reaches_storage (h : Host) (d : ReservationData) (t : Z) :
  valid (validateReservationData h t d) = true ->
  exists later,
    trace (snd (serve h (post d) (start t)))
    = EvInvoke :: EvInsert (row_of d t) :: later.
Proof.
  intro V. rewrite (serve_accepted h d (start t) V).
  destruct (persist_begins h d t) as [l1 E1].
  destruct (persist h d (start t)) as [[dbResult | error] s1]; simpl in E1.
  - cbv zeta. cbn [snd].
    unfold bind, set_emailSuccess.
    destruct (notify_extends h d (mkState (clock s1) (trace s1) false)) as [l2 E2].
    simpl in E2. rewrite E2, E1. simpl. eexists. reflexivity.
  - simpl. rewrite E1. eexists. reflexivity.
Qed.

(** *** The two operations *)






End HandlerFacts.

(* ================================================================= *)
(** ** Properties of the validation *)

Module ValidationClaims.
Import Js Handler Props TraceFacts RetryPolicy ValidationFacts HandlerFacts.

(** On a host whose local time is UTC or east of it, a complete payload
    with a well-formed address and a date-only string gets the past-date
    answer exactly when its day is before the current local day; the
    current day itself is accepted by the validation. *)
Lemma past_date_answer_east_of_utc (h : Host) (d : ReservationData)
    (s : State) (text : string) (day : Z) :
  complete d -> well_formed_email d = true ->
  date d = Some text -> names_day text day ->
  0 <= LocalTZA h < msPerDay ->
  (serve h (post d) s = (Returned (rejection msg_past), s)
   <-> day < local_day (LocalTZA h) (clock s))
  /\ (day = local_day (LocalTZA h) (clock s) ->
      validateReservationData h (clock s) d = mkValidation true None).
Proof.
  intros C E D N B.
  pose proof (past_dated_iff_earlier_day h (clock s) d text day D N B) as P.
  pose proof (validate_complete h (clock s) d C) as V. rewrite E in V. simpl in V.
  split; [split |].
  - intro R. apply P.
    destruct (past_dated h (clock s) d) eqn:Pd; [reflexivity |].
    exfalso.
    assert (A : valid (validateReservationData h (clock s) d) = true)
      by (rewrite V; reflexivity).
    rewrite (serve_accepted h d s A) in R.
    destruct (persist h d s) as [[dbResult | error] s1]; inversion R.
  - intro L. apply P in L. rewrite L in V. apply serve_invalid. exact V.
  - intro Eq. destruct (past_dated h (clock s) d) eqn:Pd; [| exact V].
    assert (day < local_day (LocalTZA h) (clock s)) by (apply P; reflexivity).
    lia.
Qed.

(** C2, at the failing input.  On a host five hours west of UTC, at noon of
    10 May 2024 local time, a complete payload with a well-formed address
    and the date of that very day is answered 400 with the past-date
    message; at the same instant a host on UTC accepts it. *)
Theorem today_is_rejected_west_of_utc :
  let d := Sample.table_for "2024-05-10" in
  names_day "2024-05-10" (local_day (LocalTZA Sample.western) Sample.t0) /\
  complete d /\ well_formed_email d = true /\
  serve Sample.western (post d) (start Sample.t0)
  = (Returned (rejection msg_past), start Sample.t0) /\
  validateReservationData Sample.healthy Sample.t0 d = mkValidation true None.
Proof.
  intro d. split; [| split; [| split; [| split]]].
  - exists 2024, 5, 10. split; reflexivity.
  - apply complete_iff. reflexivity.
  - reflexivity.
  - reflexivity.
  - reflexivity.
Qed.



(** C4, as the code has it.  The validation does not look at [eventType],
    [attendees] or [eventDescription], for an event no more than for a
    table: its verdict is the same whatever they are, and a payload it
    accepts is sent to the storage with these properties as they came. *)
Theorem validation_ignores_event_details (h : Host) (t : Z) (d : ReservationData) :
  (forall eventType attendees eventDescription,
     validateReservationData h t
       (with_event_details d eventType attendees eventDescription)
     = validateReservationData h t d)
  /\ (valid (validateReservationData h t d) = true ->
      exists later,
        trace (snd (serve h (post d) (start t)))
        = EvInvoke :: EvInsert (row_of d t) :: later).
Proof.
  split.
  - reflexivity.
  - apply accepted_reaches_storage.
Qed.

Lemma validation_ignores_event_details_witness :
  exists later,
    trace (snd (serve Sample.healthy (post Sample.bare_event) (start Sample.t0)))
    = EvInvoke :: EvInsert (row_of Sample.bare_event Sample.t0) :: later.
Proof.
  apply (proj2 (validation_ignores_event_details Sample.healthy Sample.t0
                  Sample.bare_event)).
  reflexivity.
Defined.

(** C4 as stated fails: an event reservation with none of the three event
    properties passes the validation, is inserted and answered 200. *)
Lemma bare_event_is_accepted :
  reservationType Sample.bare_event = Some "event"%string /\
  eventType Sample.bare_event = None /\
  attendees Sample.bare_event = None /\
  eventDescription Sample.bare_event = None /\
  validateReservationData Sample.healthy Sample.t0 Sample.bare_event
    = mkValidation true None /\
  (let (r, s) := serve Sample.healthy (post Sample.bare_event) (start Sample.t0) in
   r = Returned (createResponse (successBody true (Some [[("id", JNum 7)%string]])) 200)
   /\ inserts (trace s) = [EvInsert (row_of Sample.bare_event Sample.t0)]).
Proof.
  repeat split; reflexivity.
Qed.

(** C10. A complete payload with a well-formed address whose date string
    is not a date for [new Date] passes the validation: only a date that
    parses and lies before today is turned down.  The reservation then goes
    to the storage, with the string as its date. *)
Theorem unparseable_date_is_accepted (h : Host) (t : Z) (d : ReservationData) :
  complete d -> well_formed_email d = true ->
  Date_new (other_formats h) (date d) = None ->
  validateReservationData h t d = mkValidation true None
  /\ exists later,
       trace (snd (serve h (post d) (start t)))
       = EvInvoke :: EvInsert (row_of d t) :: later.
Proof.
  intros C E P.
  assert (V : validateReservationData h t d = mkValidation true None).
  { apply serve_valid_verdict; try assumption.
    unfold past_dated. rewrite P. reflexivity. }
  split; [exact V |].
  apply accepted_reaches_storage. rewrite V. reflexivity.
Qed.

Lemma unparseable_date_is_accepted_witness :
  validateReservationData Sample.healthy Sample.t0 (Sample.table_for "not-a-date")
    = mkValidation true None
  /\ exists later,
       trace (snd (serve Sample.healthy (post (Sample.table_for "not-a-date"))
                     (start Sample.t0)))
       = EvInvoke :: EvInsert (row_of (Sample.table_for "not-a-date") Sample.t0)
           :: later.
Proof.
  apply (unparseable_date_is_accepted Sample.healthy Sample.t0
           (Sample.table_for "not-a-date")).
  - apply complete_iff. reflexivity.
  - reflexivity.
  - reflexivity.
Defined.

End ValidationClaims.

(* ================================================================= *)
(** ** Properties of the handler *)

Module HandlerClaims.
Import Js Handler Props TraceFacts RetryPolicy RegexFacts ValidationFacts HandlerFacts.







(** A provider that accepts the mail (a 2xx status) and answers with a body
    that is not JSON is not a failed send for the handler: the operation
    throws and is retried, and [emailSuccess] has been set. *)
Example accepted_mail_with_unreadable_answer :
  let (r, s) := serve Sample.garbled (post (Sample.table_for "2024-05-10"))
                  (start Sample.t0) in
  r = Returned (createResponse (successBody true (Some [[("id", JNum 7)%string]])) 200)
  /\ mail_calls (trace s) = 3%nat.
Proof. split; reflexivity. Qed.




(** *** The e-mail body *)

Lemma contains_here (before needle after : string) :
  contains needle (before +++ needle +++ after).
Proof. exists before, after. reflexivity. Qed.

Lemma contains_later (first needle rest : string) :
  contains needle rest -> contains needle (first +++ rest).
Proof.
  intros (before & after & ->). exists (first +++ before), after.
  symmetry. apply append_assoc.
Qed.

(** C8. The HTML of the notification is the [html] property of the body
    sent to the mail provider.  For an event it is the base template
    followed by the event block, and that block holds the event type, the
    number of attendees and the description of the event; for a table it is
    the base template alone, whatever the event properties of the payload
    are. *)
Theorem event_block_only_for_events (h : Host) (d : ReservationData) :
  f_body (emailRequest h d)
  = JSON_stringify
      (JObj [ ("from", JStr ("Restaurant - El Rinc" +++ o_acute
                             +++ "n de Jorgito <restaurantdejorgitoadm@gmail.com>"));
              ("to", JArr [JStr adminEmail; json_of (email d)]);
              ("subject", JStr ("Nueva Reserva: " +++ interpolate (name d)));
              ("html", JStr (emailContent d)) ]%string)
  /\ (reservationType d = Some "event"%string ->
      emailContent d = emailBase d +++ eventBlock d
      /\ contains ("<p><strong>Tipo de Evento:</strong> "
                     +++ interpolate (eventType d) +++ "</p>") (eventBlock d)
      /\ contains ("<p><strong>Cantidad de Asistentes:</strong> "
                     +++ interpolate (attendees d) +++ "</p>") (eventBlock d)
      /\ contains ("<p><strong>Descripci" +++ o_acute +++ "n del Evento:</strong> "
                     +++ or_else (eventDescription d) "N/A" +++ "</p>")
                  (eventBlock d))
  /\ (reservationType d = Some "table"%string ->
      emailContent d = emailBase d
      /\ forall eventType attendees eventDescription,
           emailContent (with_event_details d eventType attendees eventDescription)
           = emailBase d).
Proof.
  split; [reflexivity |]. split.
  - intro R. split; [| split; [| split]].
    + unfold emailContent, is_event. rewrite R. reflexivity.
    + unfold eventBlock. do 3 apply contains_later. apply contains_here.
    + unfold eventBlock. do 6 apply contains_later. apply contains_here.
    + unfold eventBlock. do 9 apply contains_later. apply contains_here.
  - intro R. split.
    + unfold emailContent, is_event. rewrite R. reflexivity.
    + intros e a x. unfold emailContent, is_event. simpl. rewrite R. reflexivity.
Qed.

Lemma event_block_only_for_events_witness :
  (emailContent (Sample.event_for "2024-05-10")
   = emailBase (Sample.event_for "2024-05-10")
     +++ eventBlock (Sample.event_for "2024-05-10")
   /\ contains "<p><strong>Tipo de Evento:</strong> wedding</p>"
        (eventBlock (Sample.event_for "2024-05-10")))
  /\ emailContent (Sample.table_for "2024-05-10")
     = emailBase (Sample.table_for "2024-05-10").
Proof.
  split.
  - destruct (proj1 (proj2 (event_block_only_for_events Sample.healthy
                              (Sample.event_for "2024-05-10"))) eq_refl)
      as (C & T & _).
    split; [exact C | exact T].
  - exact (proj1 (proj2 (proj2 (event_block_only_for_events Sample.healthy
                                  (Sample.table_for "2024-05-10"))) eq_refl)).
Defined.

(** *** The method gate *)

(** C9, as the code has it.  An OPTIONS request is answered 200 with the
    body [ok] and the CORS headers, whatever its body is, and the state
    comes back as it was: no storage call, no e-mail call.  A request whose
    method is neither OPTIONS nor POST is answered 405 with the JSON body
    [{error: "Method not allowed"}]. *)
Theorem method_gate (h : Host) (req : Request) (s : State) :
  (method req = "OPTIONS"%string ->
     serve h req s = (Returned (mkResponse 200 "ok" corsHeaders), s))
  /\ (method req <> "OPTIONS"%string -> method req <> "POST"%string ->
     serve h req s
     = (Returned
          (mkResponse 405
             (JSON_stringify (JObj [("error", JStr "Method not allowed")%string]))
             (("Content-Type", "application/json")%string :: corsHeaders)),
        s)).
Proof.
  split.
  - intro O. unfold serve, try_catch. rewrite O. reflexivity.
  - intros O P. unfold serve, try_catch.
    apply String.eqb_neq in O. apply String.eqb_neq in P.
    rewrite O, P. reflexivity.
Qed.

Lemma method_gate_witness :
  serve Sample.healthy (mkRequest "OPTIONS" (Thrown (mkError "no body")))
    (start Sample.t0)
  = (Returned (mkResponse 200 "ok" corsHeaders), start Sample.t0)
  /\ serve Sample.healthy (mkRequest "GET" (Thrown (mkError "no body")))
       (start Sample.t0)
     = (Returned
          (mkResponse 405
             (JSON_stringify (JObj [("error", JStr "Method not allowed")%string]))
             (("Content-Type", "application/json")%string :: corsHeaders)),
        start Sample.t0).
Proof.
  split.
  - apply (proj1 (method_gate Sample.healthy
                    (mkRequest "OPTIONS" (Thrown (mkError "no body")))
                    (start Sample.t0))).
    reflexivity.
  - apply (proj2 (method_gate Sample.healthy
                    (mkRequest "GET" (Thrown (mkError "no body")))
                    (start Sample.t0))).
    + discriminate.
    + discriminate.
Defined.

(** C9 as stated fails: the body of the answer to OPTIONS is not empty. *)
Lemma options_body_is_not_empty :
  exists r s,
    serve Sample.healthy (mkRequest "OPTIONS" (Thrown (mkError "no body")))
      (start Sample.t0) = (Returned r, s)
    /\ status r = 200 /\ body r = "ok"%string /\ body r <> EmptyString.
Proof.
  eexists. eexists. split; [reflexivity |].
  split; [reflexivity |]. split; [reflexivity | discriminate].
Qed.

End HandlerClaims.

(* ================================================================= *)
(** ** More on the retry policy *)

Module RetryRuns.
Import Js Handler Props Outline TraceFacts RetryPolicy.

Section AnyOperation.

Variable T : Type.
Variable operation : M T.
Variables maxRetries delay : Z.




Hypothesis operation_quiet : quiet operation.
Hypothesis operation_fails : always_fails operation.

Lemma backoff_from (attempt : Z) (n : nat) :
  map (fun k => delay * (attempt + Z.of_nat k)) (seq 1 (S n))
  = delay * (attempt + 1)
    :: map (fun k => delay * (attempt + 1 + Z.of_nat k)) (seq 1 n).
Proof.
  cbn [seq map]. f_equal.
  rewrite <- seq_shift, map_map. apply map_ext. intro k. f_equal. lia.
Qed.

Lemma retry_from_always_fails (remaining : nat) :
  forall attempt lastError s,
    attempt + Z.of_nat remaining = maxRetries ->
    exists e s',
      retry_from operation maxRetries delay remaining attempt lastError s
        = (Thrown e, s')
      /\ invocations (trace s') = (invocations (trace s) + remaining)%nat
      /\ waits (trace s')
         = waits (trace s)
           ++ map (fun k => delay * (attempt + Z.of_nat k)) (seq 1 (remaining - 1)).
Proof.
  induction remaining as [| n IH]; intros attempt lastError s A.
  - rewrite retry_from_done. do 2 eexists. split; [reflexivity |].
    simpl. rewrite app_nil_r. split; [lia | reflexivity].
  - rewrite retry_from_step.
    destruct (operation_fails (log EvInvoke s)) as [e1 F].
    destruct (operation_quiet (log EvInvoke s)) as [I W].
    rewrite invocations_invoked in I. rewrite waits_invoked in W.
    destruct (operation (log EvInvoke s)) as [r s1]. simpl in F, I, W. subst r.
    destruct n as [| n].
    + replace (attempt <? maxRetries - 1) with false
        by (symmetry; apply Z.ltb_ge; lia).
      rewrite retry_from_done. do 2 eexists. split; [reflexivity |].
      simpl. rewrite app_nil_r. split; [lia | exact W].
    + replace (attempt <? maxRetries - 1) with true
        by (symmetry; apply Z.ltb_lt; lia).
      destruct (IH (attempt + 1) (Some e1) (slept (delay * (attempt + 1)) s1))
        as (e & s' & R & I' & W'); [lia |].
      exists e, s'. split; [exact R |].
      rewrite I', W', invocations_slept, waits_slept, I, W.
      split; [lia |].
      replace (S (S n) - 1)%nat with (S n) by lia.
      replace (S n - 1)%nat with n by lia.
      rewrite backoff_from, <- app_assoc. reflexivity.
Qed.

(** An operation that always fails is invoked [maxRetries] times, with the
    waits [delay * 1], ..., [delay * (maxRetries - 1)] between the
    invocations, and the loop ends on a failure. *)
Theorem retryOperation_linear_backoff (s : State) :
  0 <= maxRetries ->
  exists e s',
    retryOperation operation maxRetries delay s = (Thrown e, s')
    /\ invocations (trace s') = (invocations (trace s) + Z.to_nat maxRetries)%nat
    /\ waits (trace s') = waits (trace s) ++ backoff delay (Z.to_nat maxRetries).
Proof.
  intro B. unfold retryOperation, backoff.
  destruct (retry_from_always_fails (Z.to_nat maxRetries) 0 None s)
    as (e & s' & R & I & W); [lia |].
  exists e, s'. split; [exact R |]. split; [exact I |].
  rewrite W. f_equal.
Qed.

End AnyOperation.

Lemma broken_quiet : quiet Cases.broken.
Proof. intro s. split; reflexivity. Qed.

Lemma broken_always_fails : always_fails Cases.broken.
Proof. intro s. eexists. reflexivity. Qed.



Lemma retryOperation_linear_backoff_witness :
  exists e s',
    retryOperation Cases.broken 4 250 (start Sample.t0) = (Thrown e, s')
    /\ invocations (trace s')
       = (invocations (trace (start Sample.t0)) + Z.to_nat 4)%nat
    /\ waits (trace s')
       = waits (trace (start Sample.t0)) ++ backoff 250 (Z.to_nat 4).
Proof.
  apply (retryOperation_linear_backoff Z Cases.broken 4 250
           broken_quiet broken_always_fails (start Sample.t0)).
  lia.
Defined.

Lemma retryOperation_bounded_witness :
  (invocations (trace (snd (retryOperation (Sample.flaky 1) 5 500
                              (start Sample.t0))))
   <= invocations (trace (start Sample.t0)) + Z.to_nat 5)%nat.
Proof.
  exact (retryOperation_bounded Z (Sample.flaky 1) 5 500 (flaky_quiet 1)
           (start Sample.t0)).
Defined.

Lemma retryOperation_no_attempt_witness :
  retryOperation Cases.sound 0 500 (start Sample.t0)
  = (Thrown generic_failure, start Sample.t0).
Proof.
  apply (retryOperation_no_attempt Z Cases.sound 0 500 (start Sample.t0)).
  lia.
Defined.

End RetryRuns.

(* ================================================================= *)
(** ** Whole runs of the handler *)

Module HandlerRuns.
Import Js Handler Props Outline TraceFacts RetryPolicy ValidationFacts HandlerFacts.

Lemma storage_calls_log (ev : Event) (s : State) :
  storage_calls (trace (log ev s))
  = (storage_calls (trace s) + if is_insert ev then 1 else 0)%nat.
Proof.
  unfold log; cbn [trace]. rewrite storage_calls_app.
  destruct ev; reflexivity.
Qed.

Lemma storage_calls_slept (ms : Z) (s : State) :
  storage_calls (trace (slept ms s)) = storage_calls (trace s).
Proof. unfold slept; cbn [trace]. rewrite storage_calls_app. cbn. lia. Qed.

Lemma mail_calls_log (ev : Event) (s : State) :
  mail_calls (trace (log ev s))
  = (mail_calls (trace s) + if is_fetch ev then 1 else 0)%nat.
Proof.
  unfold log; cbn [trace]. rewrite mail_calls_app.
  destruct ev; reflexivity.
Qed.

Lemma mail_calls_slept (ms : Z) (s : State) :
  mail_calls (trace (slept ms s)) = mail_calls (trace s).
Proof. unfold slept; cbn [trace]. rewrite mail_calls_app. cbn. lia. Qed.

Lemma mail_calls_mailed (h : Host) (d : ReservationData) (o : FetchOutcome) (s : State) :
  mail_calls (trace (mailed h d o s)) = S (mail_calls (trace s)).
Proof. unfold mailed; cbn [trace]. rewrite mail_calls_app. cbn. lia. Qed.

(** Brings the number of a call and the clock of a state built from
    [log], [slept] and [mailed] to a plain form. *)
Ltac settle_calls :=
  repeat (rewrite storage_calls_log || rewrite storage_calls_slept
          || rewrite mail_calls_log || rewrite mail_calls_slept
          || rewrite mail_calls_mailed);
  cbn [is_insert is_fetch];
  rewrite ?Nat.add_0_r, ?Nat.add_1_r;
  cbn [clock log slept mailed].

(** One run of each closure. *)
Lemma insertReservation_run (h : Host) (d : ReservationData) (s : State) :
  insertReservation h d s
  = (let o := storage h (storage_calls (trace s)) (row_of d (clock s)) in
     match db_failure o with
     | Some e => Thrown e
     | None => Returned (db_data o)
     end,
     log (EvInsert (row_of d (clock s))) s).
Proof.
  unfold insertReservation, bind, now. cbv zeta.
  destruct (storage h _ _) as [e | data [error |]]; reflexivity.
Qed.

Lemma sendEmail_run (h : Host) (d : ReservationData) (s : State) :
  sendEmail h d s
  = (let o := mail h (mail_calls (trace s)) (emailRequest h d) in
     (mail_result o, mailed h d o s)).
Proof.
  unfold sendEmail, mailed, log, mail_result, mail_refused. cbv zeta.
  destruct (mail h _ _) as [e | r].
  - rewrite orb_false_r. destruct s; reflexivity.
  - destruct (ok r); simpl.
    + unfold bind, set_emailSuccess. simpl. rewrite orb_true_r. reflexivity.
    + rewrite orb_false_r. destruct s. destruct (text r); reflexivity.
Qed.

Lemma returned_not_refused (o : FetchOutcome) (j : Json) :
  mail_result o = Returned j -> mail_refused o = false.
Proof.
  destruct o as [e | r]; simpl; [discriminate |].
  destruct (ok r); [reflexivity |]. destruct (text r); discriminate.
Qed.

(** The storage step, turn by turn. *)
Lemma persist_run (h : Host) (d : ReservationData) (s : State) :
  let c := storage_calls (trace s) in
  let t := clock s in
  let o0 := storage h c (row_of d t) in
  let o1 := storage h (S c) (row_of d (t + 500)) in
  let o2 := storage h (S (S c)) (row_of d (t + 500 + 1000)) in
  let s1 := log (EvInsert (row_of d t)) (log EvInvoke s) in
  let s2 := log (EvInsert (row_of d (t + 500))) (log EvInvoke (slept 500 s1)) in
  let s3 := log (EvInsert (row_of d (t + 500 + 1000)))
              (log EvInvoke (slept 1000 s2)) in
  persist h d s
  = match db_failure o0 with
    | None => (Returned (db_data o0), s1)
    | Some _ =>
        match db_failure o1 with
        | None => (Returned (db_data o1), s2)
        | Some _ =>
            match db_failure o2 with
            | None => (Returned (db_data o2), s3)
            | Some e => (Thrown e, s3)
            end
        end
    end.
Proof.
  cbv zeta.
  unfold persist, retryOperation, MAX_RETRIES, RETRY_DELAY.
  change (Z.to_nat 3) with 3%nat.
  retry_turn. rewrite insertReservation_run. cbv zeta. settle_calls.
  destruct (db_failure (storage h (storage_calls (trace s)) _)) as [e0 |];
    [| reflexivity].
  change (500 * 1) with 500.
  retry_turn. rewrite insertReservation_run. cbv zeta. settle_calls.
  destruct (db_failure (storage h (S (storage_calls (trace s))) _)) as [e1 |];
    [| reflexivity].
  change (500 * 2) with 1000.
  retry_turn. rewrite insertReservation_run. cbv zeta. settle_calls.
  destruct (db_failure (storage h (S (S (storage_calls (trace s)))) _)) as [e2 |];
    [| reflexivity].
  apply retry_from_done.
Qed.

(** The e-mail step, turn by turn. *)
Lemma notify_run (h : Host) (d : ReservationData) (s : State) :
  let c := mail_calls (trace s) in
  let m0 := mail h c (emailRequest h d) in
  let m1 := mail h (S c) (emailRequest h d) in
  let m2 := mail h (S (S c)) (emailRequest h d) in
  let u1 := mailed h d m0 (log EvInvoke s) in
  let u2 := mailed h d m1 (log EvInvoke (slept 500 u1)) in
  let u3 := mailed h d m2 (log EvInvoke (slept 1000 u2)) in
  notify h d s
  = match mail_result m0 with
    | Returned j => (Returned j, u1)
    | Thrown _ =>
        match mail_result m1 with
        | Returned j => (Returned j, u2)
        | Thrown _ => (mail_result m2, u3)
        end
    end.
Proof.
  cbv zeta.
  unfold notify, retryOperation, MAX_RETRIES, RETRY_DELAY.
  change (Z.to_nat 3) with 3%nat.
  retry_turn. rewrite sendEmail_run. cbv zeta. settle_calls.
  destruct (mail_result (mail h (mail_calls (trace s)) _)) as [j0 | e0];
    [reflexivity |].
  change (500 * 1) with 500.
  retry_turn. rewrite sendEmail_run. cbv zeta. settle_calls.
  destruct (mail_result (mail h (S (mail_calls (trace s))) _)) as [j1 | e1];
    [reflexivity |].
  change (500 * 2) with 1000.
  retry_turn. rewrite sendEmail_run. cbv zeta. settle_calls.
  destruct (mail_result (mail h (S (S (mail_calls (trace s)))) _)) as [j2 | e2];
    [reflexivity |].
  apply retry_from_done.
Qed.

Lemma waited_app (t u : list Event) : waited (t ++ u) = waited t + waited u.
Proof.
  unfold waited. rewrite waits_app, fold_right_app.
  induction (waits t) as [| w l IH]; simpl; [reflexivity | rewrite IH; lia].
Qed.

(** The e-mail step of a request that has made no mail call yet. *)
Lemma notify_phase (h : Host) (d : ReservationData) (s1 : State) :
  mail_calls (trace s1) = 0%nat ->
  let s2 := snd ((set_emailSuccess false ;;; notify h d) s1) in
  let made := mail_part h d (mails_made (mail_tries h d)) in
  emailSuccess s2 = negb (forallb mail_refused (mail_tries h d))
  /\ trace s2 = trace s1 ++ made
  /\ clock s2 = clock s1 + waited made.
Proof.
  intro C. cbv zeta. unfold bind, set_emailSuccess.
  rewrite notify_run. cbv zeta. cbn [trace]. rewrite C.
  unfold mail_tries. cbn [mails_made forallb].
  destruct (mail_result (mail h 0 (emailRequest h d))) as [j0 | e0] eqn:R0.
  { pose proof (returned_not_refused _ _ R0) as N0.
    cbn. rewrite !N0, <- !app_assoc. repeat split; try reflexivity; lia. }
  destruct (mail_result (mail h 1 (emailRequest h d))) as [j1 | e1] eqn:R1.
  { pose proof (returned_not_refused _ _ R1) as N1.
    cbn. rewrite !N1, orb_true_r, andb_false_r, <- !app_assoc.
    repeat split; try reflexivity; lia. }
  assert (made3 : mail_part h d
            (S (S (S match mail_result (mail h 2 (emailRequest h d)) with
                     | Returned _ => 0
                     | Thrown _ => 0
                     end))) = mail_part h d 3)
    by (destruct (mail_result (mail h 2 (emailRequest h d))); reflexivity).
  rewrite made3.
  cbn. rewrite <- !app_assoc. repeat split; try reflexivity; try lia.
  destruct (mail_refused (mail h 0 _)), (mail_refused (mail h 1 _)),
    (mail_refused (mail h 2 _)); reflexivity.
Qed.

(** What a valid payload gets: the answer, the trace and the clock, from
    the outcomes of the calls. *)
Lemma serve_valid_run (h : Host) (d : ReservationData) (t : Z) :
  valid (validateReservationData h t d) = true ->
  let stored := first_success (storage_tries h d t) None in
  let run := serve h (post d) (start t) in
  fst run = Returned (answer stored (mail_tries h d))
  /\ trace (snd run)
     = storage_part d t (inserts_made (storage_tries h d t))
       ++ match stored with
          | Thrown _ => []
          | Returned _ => mail_part h d (mails_made (mail_tries h d))
          end
  /\ clock (snd run) = t + waited (trace (snd run)).
Proof.
  intro V. cbv zeta.
  rewrite (serve_accepted h d (start t) V), persist_run. cbv zeta.
  change (storage_calls (trace (start t))) with 0%nat.
  change (clock (start t)) with t.
  unfold storage_tries.
  cbn [first_success inserts_made].
  destruct (db_failure (storage h 0 (row_of d t))) as [e0 |].
  2: { match goal with
       | |- context [(set_emailSuccess false ;;; notify h d) ?s1] =>
           destruct (notify_phase h d s1 eq_refl) as (E & Tr & Cl)
       end.
       cbn [fst snd answer]. rewrite E, Tr, Cl, waited_app.
       repeat split; try reflexivity;
         generalize (waited (mail_part h d (mails_made (mail_tries h d))));
         intro w; unfold waited;
         cbn [clock trace log slept start app waits fold_right]; lia. }
  destruct (db_failure (storage h 1 (row_of d (t + 500)))) as [e1 |].
  2: { match goal with
       | |- context [(set_emailSuccess false ;;; notify h d) ?s1] =>
           destruct (notify_phase h d s1 eq_refl) as (E & Tr & Cl)
       end.
       cbn [fst snd answer]. rewrite E, Tr, Cl, waited_app.
       repeat split; try reflexivity;
         generalize (waited (mail_part h d (mails_made (mail_tries h d))));
         intro w; unfold waited;
         cbn [clock trace log slept start app waits fold_right]; lia. }
  destruct (db_failure (storage h 2 (row_of d (t + 500 + 1000)))) as [e2 |].
  2: { match goal with
       | |- context [(set_emailSuccess false ;;; notify h d) ?s1] =>
           destruct (notify_phase h d s1 eq_refl) as (E & Tr & Cl)
       end.
       cbn [fst snd answer]. rewrite E, Tr, Cl, waited_app.
       repeat split; try reflexivity;
         generalize (waited (mail_part h d (mails_made (mail_tries h d))));
         intro w; unfold waited;
         cbn [clock trace log slept start app waits fold_right]; lia. }
  cbn [fst snd answer app]. rewrite app_nil_r.
  repeat split; try reflexivity.
  unfold waited. cbn [clock trace log slept start app waits fold_right]. lia.
Qed.

(** *** What a valid payload gets *)

(** The answer to a valid payload is decided by the outcomes of the three
    possible insert calls and of the three possible mail calls: 500 with the
    last failure when all three inserts fail; otherwise 200 with the rows of
    the first insert that did not fail, and [emailSent] false exactly when
    all three mail calls were refused. *)
Theorem valid_payload_answer (h : Host) (d : ReservationData) (t : Z) :
  valid (validateReservationData h t d) = true ->
  fst (serve h (post d) (start t))
  = Returned (answer (first_success (storage_tries h d t) None) (mail_tries h d)).
Proof. intro V. exact (proj1 (serve_valid_run h d t V)). Qed.

Lemma valid_payload_answer_witness :
  fst (serve Cases.busy_once (post (Sample.table_for "2024-05-10"))
         (start Sample.t0))
  = Returned (createResponse
                (successBody true (Some [[("id", JNum 8)%string]])) 200).
Proof.
  exact (valid_payload_answer Cases.busy_once (Sample.table_for "2024-05-10")
           Sample.t0 eq_refl).
Defined.

(** The calls and waits of a valid payload, in order: the inserts up to
    the first that does not fail, 500 and 1000 ms apart, then, if one did
    not fail, the mail calls up to the first whose closure returns, again
    500 and 1000 ms apart; the clock has moved by the waits. *)
Theorem valid_payload_calls (h : Host) (d : ReservationData) (t : Z) :
  valid (validateReservationData h t d) = true ->
  let s' := snd (serve h (post d) (start t)) in
  trace s'
  = storage_part d t (inserts_made (storage_tries h d t))
    ++ match first_success (storage_tries h d t) None with
       | Thrown _ => []
       | Returned _ => mail_part h d (mails_made (mail_tries h d))
       end
  /\ clock s' = t + waited (trace s').
Proof. intro V. exact (proj2 (serve_valid_run h d t V)). Qed.

Lemma valid_payload_calls_witness :
  let d := Sample.table_for "2024-05-10" in
  let s' := snd (serve Cases.busy_once (post d) (start Sample.t0)) in
  trace s'
  = [ EvInvoke; EvInsert (row_of d Sample.t0); EvSleep 500;
      EvInvoke; EvInsert (row_of d (Sample.t0 + 500));
      EvInvoke; EvFetch (emailRequest Cases.busy_once d) ]
  /\ clock s' = Sample.t0 + waited (trace s').
Proof.
  exact (valid_payload_calls Cases.busy_once (Sample.table_for "2024-05-10")
           Sample.t0 eq_refl).
Defined.

(** *** Every request *)

Lemma serve_cases (h : Host) (req : Request) (s : State) :
  (exists r,
     serve h req s = (Returned r, s)
     /\ (r = mkResponse 200 "ok" corsHeaders /\ method req = "OPTIONS"%string
         \/ (status r = 405 \/ status r = 400)
            /\ method req <> "OPTIONS"%string
            /\ headers r = ("Content-Type", "application/json")%string :: corsHeaders))
  \/ (exists d,
        req = post d /\ valid (validateReservationData h (clock s) d) = true).
Proof.
  destruct req as [m j]. unfold serve, try_catch. cbn [method json].
  destruct (String.eqb m "OPTIONS") eqn:O.
  - apply String.eqb_eq in O. left. eexists. split; [reflexivity |]. left. auto.
  - apply String.eqb_neq in O.
    destruct (String.eqb m "POST") eqn:P; cbn [negb].
    2: { left. eexists. split; [reflexivity |]. right. cbn. auto. }
    apply String.eqb_eq in P. subst m.
    destruct j as [d | e].
    2: { left. eexists. split; [reflexivity |]. right. cbn. auto. }
    unfold bind, now, ret.
    destruct (valid (validateReservationData h (clock s) d)) eqn:V; cbn [negb].
    + right. exists d. split; [reflexivity | exact V].
    + left. eexists. split; [reflexivity |]. right. cbn. auto.
Qed.

Lemma tries_made (h : Host) (d : ReservationData) (t : Z) :
  let n := inserts_made (storage_tries h d t) in
  let m := mails_made (mail_tries h d) in
  (1 <= n <= 3)%nat /\ (1 <= m <= 3)%nat
  /\ (forall e, first_success (storage_tries h d t) None = Thrown e -> n = 3%nat).
Proof.
  unfold storage_tries, mail_tries. cbn [inserts_made mails_made first_success].
  destruct (db_failure (storage h 0 (row_of d t))),
    (db_failure (storage h 1 (row_of d (t + 500)))),
    (db_failure (storage h 2 (row_of d (t + 500 + 1000))));
  destruct (mail_result (mail h 0 (emailRequest h d))),
    (mail_result (mail h 1 (emailRequest h d))),
    (mail_result (mail h 2 (emailRequest h d)));
  repeat split; try lia; intros; try discriminate; reflexivity.
Qed.

Lemma storage_part_counts (d : ReservationData) (t : Z) (n : nat) :
  (1 <= n <= 3)%nat ->
  storage_calls (storage_part d t n) = n
  /\ mail_calls (storage_part d t n) = 0%nat
  /\ 0 <= waited (storage_part d t n) <= 1500.
Proof.
  intro B. destruct n as [| [| [| [| n]]]]; try lia;
    cbn; repeat split; lia.
Qed.

Lemma mail_part_counts (h : Host) (d : ReservationData) (n : nat) :
  (1 <= n <= 3)%nat ->
  storage_calls (mail_part h d n) = 0%nat
  /\ mail_calls (mail_part h d n) = n
  /\ 0 <= waited (mail_part h d n) <= 1500.
Proof.
  intro B. destruct n as [| [| [| [| n]]]]; try lia;
    cbn; repeat split; lia.
Qed.

Lemma valid_run_counts (h : Host) (d : ReservationData) (t : Z) :
  valid (validateReservationData h t d) = true ->
  let s' := snd (serve h (post d) (start t)) in
  (1 <= storage_calls (trace s') <= 3)%nat
  /\ (mail_calls (trace s') <= 3)%nat
  /\ 0 <= waited (trace s') <= 3000
  /\ (forall e, first_success (storage_tries h d t) None = Thrown e ->
        storage_calls (trace s') = 3%nat /\ mail_calls (trace s') = 0%nat)
  /\ (forall v, first_success (storage_tries h d t) None = Returned v ->
        (1 <= mail_calls (trace s'))%nat).
Proof.
  intro V. cbv zeta.
  destruct (serve_valid_run h d t V) as (_ & Tr & _). rewrite Tr.
  destruct (tries_made h d t) as (Bn & Bm & N3).
  destruct (storage_part_counts d t _ Bn) as (Sn & Mn & Wn).
  destruct (mail_part_counts h d _ Bm) as (Sm & Mm & Wm).
  rewrite storage_calls_app, mail_calls_app, waited_app, Sn, Mn.
  destruct (first_success (storage_tries h d t) None) as [v | e].
  - rewrite Sm, Mm. repeat split; try lia; intros; try discriminate; lia.
  - specialize (N3 e eq_refl).
    change (storage_calls []) with 0%nat. change (mail_calls []) with 0%nat.
    change (waited []) with 0.
    repeat split; try lia; intros; try discriminate; lia.
Qed.


(** Whatever the request, the handler makes at most three insert calls and
    at most three mail calls, and waits at most three seconds in all; the
    clock moves by these waits. *)
Theorem bounded_effort (h : Host) (req : Request) (t : Z) :
  let s' := snd (serve h req (start t)) in
  (storage_calls (trace s') <= 3)%nat
  /\ (mail_calls (trace s') <= 3)%nat
  /\ 0 <= waited (trace s') <= 3000
  /\ clock s' = t + waited (trace s').
Proof.
  cbv zeta.
  destruct (serve_cases h req (start t)) as [(r & E & _) | (d & -> & V)].
  - rewrite E. cbn. repeat split; lia.
  - change (clock (start t)) with t in V.
    destruct (valid_run_counts h d t V) as (Bs & Bm & W & _).
    destruct (serve_valid_run h d t V) as (_ & _ & C).
    repeat split; try lia; exact C.
Qed.

(** Each answer carries the CORS headers: alone for OPTIONS, after the
    JSON content type for every other request. *)
Theorem every_answer_has_cors_headers (h : Host) (req : Request) (s : State) :
  exists r s',
    serve h req s = (Returned r, s')
    /\ headers r
       = if String.eqb (method req) "OPTIONS" then corsHeaders
         else ("Content-Type", "application/json")%string :: corsHeaders.
Proof.
  destruct (serve_cases h req s) as [(r & E & K) | (d & -> & V)].
  - exists r, s. split; [exact E |].
    destruct K as [[-> O] | (_ & O & H)].
    + rewrite O. reflexivity.
    + apply String.eqb_neq in O. rewrite O. exact H.
  - rewrite (serve_accepted h d s V).
    destruct (persist h d s) as [[dbResult | error] s1];
      eexists; eexists; split; reflexivity.
Qed.

(** *** What leaves the handler *)

Lemma firstn_keeps {A} (P : A -> Prop) (n : nat) (l : list A) :
  Forall P l -> Forall P (firstn n l).
Proof.
  intro F. revert n. induction F as [| x l Px _ IH]; intro n.
  - rewrite firstn_nil. constructor.
  - destruct n; simpl; constructor; auto.
Qed.

(** Only a payload that passed the validation causes any call, and what
    the calls carry is that payload: each insert sends its properties as
    they came (with the time of the call), each mail call sends the one
    request built from them. *)
Theorem only_validated_data_leaves (h : Host) (d : ReservationData) (t : Z) :
  let s' := snd (serve h (post d) (start t)) in
  Forall (event_of h d) (trace s')
  /\ (trace s' <> [] -> valid (validateReservationData h t d) = true).
Proof.
  cbv zeta.
  destruct (valid (validateReservationData h t d)) eqn:V.
  - split; [| reflexivity].
    destruct (serve_valid_run h d t V) as (_ & Tr & _). rewrite Tr.
    apply Forall_app. split.
    + apply firstn_keeps.
      repeat (apply Forall_cons; [cbn; eauto |]). apply Forall_nil.
    + destruct (first_success (storage_tries h d t) None); [| constructor].
      apply firstn_keeps.
      repeat (apply Forall_cons; [cbn; eauto |]). apply Forall_nil.
  - destruct (serve_cases h (post d) (start t)) as [(r & E & _) | (d' & P & V')].
    + rewrite E. cbn. split; [constructor | congruence].
    + inversion P; subst d'. change (clock (start t)) with t in V'. congruence.
Qed.

(** A POST whose body cannot be read as JSON is answered 400 at once: no
    validation, no storage call, no mail call. *)
Theorem unreadable_body_is_answered_400
    (h : Host) (req : Request) (s : State) (e : Error) :
  method req = "POST"%string -> json req = Thrown e ->
  serve h req s
  = (Returned
       (createResponse
          (JObj [ ("error", JStr "Invalid request format");
                  ("details", JStr "Could not parse JSON body") ]%string)
          400),
     s).
Proof.
  intros P J. unfold serve, try_catch. rewrite P, J. reflexivity.
Qed.

Lemma unreadable_body_is_answered_400_witness :
  serve Sample.healthy (mkRequest "POST" (Thrown (mkError "Unexpected token")))
    (start Sample.t0)
  = (Returned
       (createResponse
          (JObj [ ("error", JStr "Invalid request format");
                  ("details", JStr "Could not parse JSON body") ]%string)
          400),
     start Sample.t0).
Proof.
  exact (unreadable_body_is_answered_400 Sample.healthy
           (mkRequest "POST" (Thrown (mkError "Unexpected token")))
           (start Sample.t0) (mkError "Unexpected token") eq_refl eq_refl).
Defined.

(** *** The date check as time passes *)

Lemma setHours0_grows (tza t t' : Z) :
  t <= t' -> setHours0 tza t <= setHours0 tza t'.
Proof.
  intro L. unfold setHours0.
  assert ((t + tza) / msPerDay <= (t' + tza) / msPerDay)
    by (apply Z.div_le_mono; [reflexivity | lia]).
  unfold msPerDay in *. lia.
Qed.

(** A payload turned down as past stays turned down as past at any later
    time, and a payload accepted at some time was acceptable at any earlier
    time. *)
Theorem past_stays_past (h : Host) (t t' : Z) (d : ReservationData) :
  t <= t' ->
  (validateReservationData h t d = mkValidation false (Some msg_past) ->
   validateReservationData h t' d = mkValidation false (Some msg_past))
  /\ (validateReservationData h t' d = mkValidation true None ->
      validateReservationData h t d = mkValidation true None).
Proof.
  intro L.
  assert (Mono : past_dated h t d = true -> past_dated h t' d = true).
  { unfold past_dated, Date_lt.
    destruct (Date_new (other_formats h) (date d)) as [r |]; [| discriminate].
    rewrite !Z.ltb_lt. pose proof (setHours0_grows (LocalTZA h) t t' L). lia. }
  unfold validateReservationData.
  fold (past_dated h t d) (past_dated h t' d).
  destruct (negb (truthy (name d)) || negb (truthy (email d))
            || negb (truthy (date d)) || negb (truthy (time d))
            || negb (truthy (guests d)) || negb (truthy (reservationType d))).
  { split; discriminate. }
  destruct (negb (test emailRegex (interpolate (email d)))).
  { split; discriminate. }
  destruct (past_dated h t d) eqn:P.
  - rewrite (Mono eq_refl). split; [reflexivity | discriminate].
  - split; [discriminate | reflexivity].
Qed.

Lemma past_stays_past_witness :
  validateReservationData Sample.healthy (Sample.t0 + msPerDay)
    (Sample.table_for "2024-05-09")
  = mkValidation false (Some msg_past)
  /\ validateReservationData Sample.healthy Sample.t0 (Sample.table_for "2024-05-11")
     = mkValidation true None.
Proof.
  assert (L : Sample.t0 <= Sample.t0 + msPerDay) by (unfold msPerDay; lia).
  split.
  - apply (proj1 (past_stays_past Sample.healthy Sample.t0 (Sample.t0 + msPerDay)
                    (Sample.table_for "2024-05-09") L)).
    reflexivity.
  - apply (proj2 (past_stays_past Sample.healthy Sample.t0 (Sample.t0 + msPerDay)
                    (Sample.table_for "2024-05-11") L)).
    reflexivity.
Defined.

(** On the host on UTC, at 17:00 of 10 May 2024, a payload dated 10 May is
    not before the current day. *)
Lemma past_date_answer_east_of_utc_witness :
  let d := Sample.table_for "2024-05-10" in
  (serve Sample.healthy (post d) (start Sample.t0)
     = (Returned (rejection msg_past), start Sample.t0)
   <-> 19853 < local_day (LocalTZA Sample.healthy) (clock (start Sample.t0)))
  /\ (19853 = local_day (LocalTZA Sample.healthy) (clock (start Sample.t0)) ->
      validateReservationData Sample.healthy (clock (start Sample.t0)) d
      = mkValidation true None).
Proof.
  intro d.
  apply (ValidationClaims.past_date_answer_east_of_utc Sample.healthy d
           (start Sample.t0) "2024-05-10" 19853).
  - apply complete_iff. reflexivity.
  - reflexivity.
  - reflexivity.
  - exists 2024, 5, 10. split; reflexivity.
  - unfold msPerDay. simpl. lia.
Defined.

End HandlerRuns.

(* ================================================================= *)
(** ** The reservation form *)

Module FormFacts.
Import Js Form.

Lemma get_assign_same (key value : string) (o : Obj) :
  get key (assign key value o) = Some value.
Proof.
  induction o as [| [k v] o IH]; simpl.
  - rewrite String.eqb_refl. reflexivity.
  - destruct (String.eqb k key) eqn:E; simpl; rewrite E; [reflexivity | exact IH].
Qed.

Lemma get_assign_other (key k value : string) (o : Obj) :
  k <> key -> get k (assign key value o) = get k o.
Proof.
  intro N. induction o as [| [k0 v0] o IH]; simpl.
  - apply String.eqb_neq in N. rewrite String.eqb_sym, N. reflexivity.
  - destruct (String.eqb k0 key) eqn:E; simpl.
    + apply String.eqb_eq in E. subst k0.
      assert (String.eqb key k = false) as ->
        by (apply String.eqb_neq; congruence).
      reflexivity.
    + destruct (String.eqb k0 k); [reflexivity | exact IH].
Qed.

(** Typing in a field or choosing in a select sets the one key of
    [formData] it names, to the value given, and leaves every other key and
    the rest of the state as they were. *)
Theorem input_change_sets_one_key (name value : string) (st : FormState) :
  let st' := handleInputChange name value st in
  handleSelectChange name value st = st'
  /\ get name (formData st') = Some value
  /\ (forall k, k <> name -> get k (formData st') = get k (formData st))
  /\ date st' = date st /\ reservationType st' = reservationType st
  /\ isSubmitting st' = isSubmitting st
  /\ submissionAttempts st' = submissionAttempts st.
Proof.
  cbv zeta. split; [reflexivity |]. split; [apply get_assign_same |].
  split; [intros k N; apply get_assign_other; exact N |].
  repeat split; reflexivity.
Qed.

(** The payload takes its date from the day selected and its type from
    the type selected, also when [formData] has keys of these names; every
    other key of [formData] goes into the payload as it is. *)
Theorem payload_carries_date_and_type (b : Browser) (st : FormState) (day : Z) :
  let payload := reservationData b st day in
  get "date" payload = Some (format b day)
  /\ get "reservationType" payload = Some (reservationType st)
  /\ (forall k, k <> "date"%string -> k <> "reservationType"%string ->
        get k payload = get k (formData st)).
Proof.
  cbv zeta. unfold reservationData. split; [| split].
  - rewrite get_assign_other by discriminate. apply get_assign_same.
  - apply get_assign_same.
  - intros k Nd Nt. rewrite !get_assign_other by assumption. reflexivity.
Qed.

Lemma exchange_failed (b : Browser) (reply : Reply) :
  failed reply = true -> exists e, exchange b reply = inl e.
Proof.
  destruct reply as [e | ok [e | data]]; simpl.
  - eauto.
  - destruct ok; simpl; eauto.
  - destruct ok; simpl; [discriminate | eauto].
Qed.

Lemma exchange_taken (b : Browser) (data : ResponseData) :
  exchange b (Responded true (inr data)) = inr data.
Proof. reflexivity. Qed.

(** A submission sends one request when a day is selected and none
    otherwise; it always shows a toast; without a day the state stays as it
    is, and with one the form is no longer submitting at the end. *)
Theorem one_request_per_submission
    (b : Browser) (network : FormRequest -> Reply) (st : FormState) :
  let '(st', toasts, sent) := handleSubmit b network st in
  toasts <> []
  /\ match date st with
     | None => sent = [] /\ st' = st
     | Some day => sent = [request b st day] /\ isSubmitting st' = false
     end.
Proof.
  unfold handleSubmit. destruct (date st) as [day |].
  - destruct (exchange b (network (request b st day))) as [e | data];
      (split; [discriminate | split; reflexivity]).
  - split; [discriminate | split; reflexivity].
Qed.

Lemma failed_submission
    (b : Browser) (network : FormRequest -> Reply) (st : FormState) (day : Z) :
  date st = Some day ->
  failed (network (request b st day)) = true ->
  let '(st', toasts, _) := handleSubmit b network st in
  formData st' = formData st /\ date st' = date st
  /\ reservationType st' = reservationType st
  /\ submissionAttempts st' = submissionAttempts st + 1
  /\ (In (helpToast b) toasts <-> 2 <= submissionAttempts st).
Proof.
  intros D F. unfold handleSubmit. rewrite D.
  destruct (exchange_failed b _ F) as [e ->].
  repeat split; try reflexivity; try (symmetry; exact D).
  - destruct (submissionAttempts st >=? 2) eqn:G.
    + intros _. apply Z.geb_le in G. lia.
    + intros [H | []]. discriminate.
  - intro L. apply Z.geb_le in L. rewrite L. right. left. reflexivity.
Qed.

(** A failed submission keeps what the user entered (fields, day, type)
    and counts one more attempt; the toast that suggests to call is shown
    exactly when two attempts had been counted before. *)
Theorem failed_submission_keeps_the_form
    (b : Browser) (network : FormRequest -> Reply) (st : FormState) (day : Z) :
  date st = Some day ->
  failed (network (request b st day)) = true ->
  let '(st', toasts, _) := handleSubmit b network st in
  formData st' = formData st /\ date st' = date st
  /\ reservationType st' = reservationType st
  /\ submissionAttempts st' = submissionAttempts st + 1
  /\ (In (helpToast b) toasts <-> 2 <= submissionAttempts st).
Proof. exact (failed_submission b network st day). Qed.

Lemma failed_submission_keeps_the_form_witness :
  let '(st', toasts, _) := handleSubmit Cases.page Cases.timed_out Cases.filled in
  formData st' = formData Cases.filled /\ date st' = date Cases.filled
  /\ reservationType st' = reservationType Cases.filled
  /\ submissionAttempts st' = submissionAttempts Cases.filled + 1
  /\ (In (helpToast Cases.page) toasts <-> 2 <= submissionAttempts Cases.filled).
Proof.
  exact (failed_submission_keeps_the_form Cases.page Cases.timed_out Cases.filled
           1715385600000 eq_refl eq_refl).
Defined.

(** A submission that is answered with a 2xx status and a JSON body puts
    the form back to its first state, with one toast whose text says that
    no confirmation was mailed exactly when [emailSent] is [false]. *)
Theorem successful_submission_clears_the_form
    (b : Browser) (network : FormRequest -> Reply) (st : FormState) (day : Z)
    (data : ResponseData) :
  date st = Some day ->
  network (request b st day) = Responded true (inr data) ->
  handleSubmit b network st
  = (initial,
     [mkToast (text_success b)
        (if match rd_emailSent data with Some false => true | _ => false end
         then text_recorded_without_mail b else text_will_confirm b)
        None],
     [request b st day]).
Proof.
  intros D N. unfold handleSubmit. rewrite D, N, exchange_taken.
  unfold successToast, initial.
  destruct (rd_emailSent data) as [[|] |]; reflexivity.
Qed.

Lemma successful_submission_clears_the_form_witness :
  handleSubmit Cases.page Cases.taken Cases.filled
  = (initial,
     [mkToast (text_success Cases.page) (text_will_confirm Cases.page) None],
     [request Cases.page Cases.filled 1715385600000]).
Proof.
  exact (successful_submission_clears_the_form Cases.page Cases.taken Cases.filled
           1715385600000
           (mkResponseData (Some "Reservation submitted successfully"%string)
              (Some true))
           eq_refl eq_refl).
Defined.

(** Only an error named [TypeError] is reported as a network problem: for
    a rejected request whose error has another name, as the abort of the
    ten-second timer has, the toast shows the message of the error, or the
    general text when that message is empty. *)
Theorem only_a_type_error_is_a_network_error
    (b : Browser) (network : FormRequest -> Reply) (st : FormState) (day : Z)
    (e : ErrorObj) :
  date st = Some day ->
  network (request b st day) = Rejected e ->
  ename e <> "TypeError"%string ->
  exists more,
    snd (fst (handleSubmit b network st))
    = mkToast (text_submission_error b)
        (match emessage e with
         | EmptyString => text_problem b
         | m => m
         end)
        (Some "destructive"%string)
      :: more.
Proof.
  intros D N T. unfold handleSubmit. rewrite D, N. cbn [exchange fst snd].
  eexists. unfold errorToast, isNetworkError.
  apply String.eqb_neq in T. rewrite T. cbn [andb or_else].
  destruct (emessage e); reflexivity.
Qed.

Lemma only_a_type_error_is_a_network_error_witness :
  exists more,
    snd (fst (handleSubmit Cases.page Cases.timed_out Cases.filled))
    = mkToast (text_submission_error Cases.page) "The user aborted a request."
        (Some "destructive"%string)
      :: more.
Proof.
  exact (only_a_type_error_is_a_network_error Cases.page Cases.timed_out
           Cases.filled 1715385600000
           (mkErrorObj "AbortError" "The user aborted a request.")
           eq_refl eq_refl ltac:(discriminate)).
Defined.

(** *** Submissions in a row *)

Lemma failing_run (b : Browser) (networks : list (FormRequest -> Reply)) :
  forall (st : FormState) (day : Z),
    date st = Some day ->
    Forall (fun network => forall q, failed (network q) = true) networks ->
    let (final, shown) := submit_each b networks st in
    formData final = formData st /\ date final = date st
    /\ reservationType final = reservationType st
    /\ submissionAttempts final
       = submissionAttempts st + Z.of_nat (List.length networks)
    /\ List.length shown = List.length networks
    /\ forall k toasts,
         nth_error shown k = Some toasts ->
         (In (helpToast b) toasts <-> 2 <= submissionAttempts st + Z.of_nat k).
Proof.
  induction networks as [| network rest IH]; intros st day D F.
  - simpl. repeat split; try reflexivity; try lia;
      destruct k; discriminate.
  - inversion F as [| ? ? Fn Fr]; subst.
    cbn [submit_each].
    pose proof (failed_submission b network st day D (Fn _)) as One.
    destruct (handleSubmit b network st) as [[st1 toasts1] sent1].
    destruct One as (Fd & Dt & Rt & At & Help).
    assert (D1 : date st1 = Some day) by congruence.
    specialize (IH st1 day D1 Fr).
    destruct (submit_each b rest st1) as [final later].
    destruct IH as (Fd' & Dt' & Rt' & At' & Len & Later).
    split; [congruence |]. split; [congruence |]. split; [congruence |].
    split; [rewrite At', At; cbn [List.length]; lia |].
    split; [cbn [List.length]; congruence |].
    intros k toasts E. destruct k as [| k]; cbn [nth_error] in E.
    + inversion E; subst. rewrite Z.add_0_r. exact Help.
    + rewrite (Later k toasts E), At. split; lia.
Qed.

(** From a form with a day selected and no attempt counted, submissions
    that all fail keep the entries, count one attempt each, and show the
    suggestion to call from the third on. *)
Theorem help_from_the_third_failure
    (b : Browser) (networks : list (FormRequest -> Reply)) (st : FormState) (day : Z) :
  date st = Some day -> submissionAttempts st = 0 ->
  Forall (fun network => forall q, failed (network q) = true) networks ->
  let (final, shown) := submit_each b networks st in
  formData final = formData st /\ date final = date st
  /\ submissionAttempts final = Z.of_nat (List.length networks)
  /\ forall k toasts,
       nth_error shown k = Some toasts ->
       (In (helpToast b) toasts <-> (2 <= k)%nat).
Proof.
  intros D A F. pose proof (failing_run b networks st day D F) as R.
  destruct (submit_each b networks st) as [final shown].
  destruct R as (Fd & Dt & _ & At & _ & Help).
  split; [exact Fd |]. split; [exact Dt |]. split; [lia |].
  intros k toasts E. rewrite (Help k toasts E), A. split; lia.
Qed.

Lemma all_fail :
  Forall (fun network : FormRequest -> Reply => forall q, failed (network q) = true)
    [Cases.offline; Cases.turned_down; Cases.timed_out].
Proof. repeat constructor. Qed.

Lemma help_from_the_third_failure_witness :
  let (final, shown) :=
    submit_each Cases.page [Cases.offline; Cases.turned_down; Cases.timed_out]
      Cases.filled in
  formData final = formData Cases.filled /\ date final = date Cases.filled
  /\ submissionAttempts final = Z.of_nat 3
  /\ forall k toasts,
       nth_error shown k = Some toasts ->
       (In (helpToast Cases.page) toasts <-> (2 <= k)%nat).
Proof.
  exact (help_from_the_third_failure Cases.page
           [Cases.offline; Cases.turned_down; Cases.timed_out] Cases.filled
           1715385600000 eq_refl eq_refl all_fail).
Defined.

End FormFacts.
